(** * Summoners Reunion chat client: a model of [frontend/js/chat.js]

    The browser-side chat session of the repository: the [ChatState] class,
    the health probe, the send guard, the consumer of the server-sent-event
    stream and the clear action, embedded as functions over an explicit
    world (session state, the part of the page the script writes, the
    requests issued, the console and the timers).

    Conventions.
    - A JavaScript string is a [string]; each [ascii] stands for one code
      unit in the range U+0000..U+00FF.
    - A [Date] is the number of milliseconds since the epoch.  A message
      keeps the instant itself where the script keeps [toISOString()] of it.
    - The page is assumed to contain every element looked up in [elements].
    - Layout-only writes (textarea height, scroll offset) are not part of the
      world; the timer that [scrollToBottom] registers is. *)

From Stdlib Require Import String Ascii List ZArith Bool Lia.
From Stdlib Require Import DecimalString.
Import ListNotations.

Set Warnings "-register-all".

Local Open Scope string_scope.
Local Open Scope list_scope.

Infix "+++" := String.append (at level 60, right associativity).

(** ** Strings, as the script uses them *)

Definition LF : ascii := "010"%char.
Definition DQUOTE : ascii := "034"%char.

Definition str_empty (s : string) : bool :=
  match s with EmptyString => true | String _ _ => false end.

(** WhiteSpace and LineTerminator code units below U+0100: TAB, LF, VT, FF,
    CR, SP and NBSP. *)
Definition isWhiteSpace (c : ascii) : bool :=
  let n := nat_of_ascii c in
  (n =? 9)%nat || (n =? 10)%nat || (n =? 11)%nat || (n =? 12)%nat
  || (n =? 13)%nat || (n =? 32)%nat || (n =? 160)%nat.

Fixpoint trimStart (s : string) : string :=
  match s with
  | EmptyString => EmptyString
  | String c r => if isWhiteSpace c then trimStart r else s
  end.

Fixpoint trimEnd (s : string) : string :=
  match s with
  | EmptyString => EmptyString
  | String c r =>
      let r' := trimEnd r in
      if isWhiteSpace c && str_empty r' then EmptyString else String c r'
  end.

(** [s.trim()] *)
Definition trim (s : string) : string := trimEnd (trimStart s).

(** [s.startsWith(p)] *)
Definition startsWith (p s : string) : bool := String.prefix p s.

(** [s.substring(n)] *)
Fixpoint substring_from (n : nat) (s : string) : string :=
  match n, s with
  | O, _ => s
  | S _, EmptyString => EmptyString
  | S m, String _ r => substring_from m r
  end.

(** [s.split(sep)] for a one-character separator: never the empty list. *)
Fixpoint split (sep : ascii) (s : string) : list string :=
  match s with
  | EmptyString => [EmptyString]
  | String c r =>
      if Ascii.eqb c sep then EmptyString :: split sep r
      else match split sep r with
           | h :: t => String c h :: t
           | [] => [String c EmptyString]
           end
  end.

(** [parts.join(EmptyString)] *)
Definition join_empty (parts : list string) : string :=
  fold_right String.append EmptyString parts.

(** Decimal rendering of an integer, as a template literal renders it. *)
Definition string_of_Z (z : Z) : string := NilZero.string_of_int (Z.to_int z).

(** ** JavaScript values, as far as [JSON.parse] produces them *)

(** A Number is kept as its canonical rendering [Number::toString], which
    determines it up to the sign of zero.  An object keeps its members in
    source order; a repeated key is read at its last occurrence. *)
Inductive JsValue : Type :=
| JUndefined
| JNull
| JBool (b : bool)
| JNumber (repr : string)
| JString (s : string)
| JArray (items : list JsValue)
| JObject (members : list (string * JsValue)).

(** ToBoolean *)
Definition truthy (v : JsValue) : bool :=
  match v with
  | JUndefined | JNull => false
  | JBool b => b
  | JNumber r => negb (String.eqb r "0") && negb (String.eqb r "NaN")
  | JString s => negb (str_empty s)
  | JArray _ | JObject _ => true
  end.

(** [ms] has an own member named [key]. *)
Definition own_key (key : string) (ms : list (string * JsValue)) : bool :=
  existsb (fun m => String.eqb (fst m) key) ms.

(** The conversion to a string that concatenation applies to its right
    operand; [None] is the TypeError it raises.  An object from [JSON.parse]
    converts through [Object.prototype.toString] unless it has an own member
    [toString], which is never callable and leaves no method that yields a
    primitive.  An array converts through [join], which converts its
    elements in turn and takes [null] for the empty string. *)
Fixpoint ToString (v : JsValue) : option string :=
  match v with
  | JUndefined => Some "undefined"
  | JNull => Some "null"
  | JBool true => Some "true"
  | JBool false => Some "false"
  | JNumber r => Some r
  | JString s => Some s
  | JArray items =>
      (fix join (l : list JsValue) : option string :=
         match l with
         | [] => Some EmptyString
         | x :: rest =>
             match match x with
                   | JUndefined | JNull => Some EmptyString
                   | _ => ToString x
                   end, join rest with
             | Some a, Some b =>
                 Some match rest with
                      | [] => a
                      | _ :: _ => a +++ "," +++ b
                      end
             | _, _ => None
             end
         end) items
  | JObject ms =>
      if own_key "toString" ms then None else Some "[object Object]"
  end.

Fixpoint lookup_last (key : string) (ms : list (string * JsValue))
  : option JsValue :=
  match ms with
  | [] => None
  | (k, v) :: rest =>
      match lookup_last key rest with
      | Some v' => Some v'
      | None => if String.eqb k key then Some v else None
      end
  end.

(** [v.key] for the property names this script reads ([done], [content],
    [status], [bedrock_configured]), none of which a prototype defines.
    [None] is the TypeError raised on [undefined] and [null]. *)
Definition js_get (v : JsValue) (key : string) : option JsValue :=
  match v with
  | JUndefined | JNull => None
  | JObject ms =>
      Some match lookup_last key ms with Some x => x | None => JUndefined end
  | _ => Some JUndefined
  end.

(** [a && b] *)
Definition js_and (a b : JsValue) : JsValue := if truthy a then b else a.

(** [v === s] for a string literal [s] *)
Definition strict_eq_string (v : JsValue) (s : string) : bool :=
  match v with JString x => String.eqb x s | _ => false end.

(** ** Data model *)

Definition Date := Z.

Inductive Role := user | assistant.

Record Message := mkMessage {
  role : Role;
  content : string;
  timestamp : Date
}.

(** [CONFIG]; [API_BASE_URL] is [window.API_BASE_URL], absent when [None]. *)
Record Config := mkConfig {
  apiBaseUrl : string;
  endpoint_health : string;
  endpoint_chatStream : string;
  endpoint_chat : string;
  checkHealthInterval : Z;
  reconnectDelay : Z
}.

Definition CONFIG (API_BASE_URL : option string) : Config :=
  {| apiBaseUrl :=
       match API_BASE_URL with
       | Some u => if str_empty u then "http://localhost:8000" else u
       | None => "http://localhost:8000"
       end;
     endpoint_health := "/api/health";
     endpoint_chatStream := "/api/chat/stream";
     endpoint_chat := "/api/chat";
     checkHealthInterval := 30000;
     reconnectDelay := 3000 |}.

(** [class ChatState].  [isHealthy] holds whatever [checkHealth] stored in
    it, which need not be a boolean; the two fields the script never
    assigns after construction stay [None] (null). *)
Record ChatState := mkChatState {
  conversationHistory : list Message;
  isStreaming : bool;
  currentStreamingMessage : option Message;
  eventSource : option unit;
  isHealthy : JsValue
}.

(** [new ChatState()] *)
Definition ChatState_new : ChatState :=
  {| conversationHistory := [];
     isStreaming := false;
     currentStreamingMessage := None;
     eventSource := None;
     isHealthy := JBool false |}.

Definition set_conversationHistory (h : list Message) (s : ChatState) :=
  {| conversationHistory := h;
     isStreaming := isStreaming s;
     currentStreamingMessage := currentStreamingMessage s;
     eventSource := eventSource s;
     isHealthy := isHealthy s |}.

Definition set_isStreaming (b : bool) (s : ChatState) :=
  {| conversationHistory := conversationHistory s;
     isStreaming := b;
     currentStreamingMessage := currentStreamingMessage s;
     eventSource := eventSource s;
     isHealthy := isHealthy s |}.

Definition set_isHealthy (v : JsValue) (s : ChatState) :=
  {| conversationHistory := conversationHistory s;
     isStreaming := isStreaming s;
     currentStreamingMessage := currentStreamingMessage s;
     eventSource := eventSource s;
     isHealthy := v |}.

(** [addMessage(role, content, timestamp)]: the new state and the message. *)
Definition addMessage (r : Role) (c : string) (t : Date) (s : ChatState)
  : ChatState * Message :=
  let message := {| role := r; content := c; timestamp := t |} in
  (set_conversationHistory (conversationHistory s ++ [message]) s, message).

Definition clearHistory (s : ChatState) : ChatState :=
  set_conversationHistory [] s.

(** [getHistory()]: a copy, so later pushes do not reach the caller. *)
Definition getHistory (s : ChatState) : list Message := conversationHistory s.

(** ** The world the script runs in *)

Record JsError := mkError {
  error_name : string;
  error_message : string
}.

(** [element.style.display]; [DisplayUnset] leaves it to the style sheet. *)
Inductive Display := DisplayUnset | DisplayNone | DisplayFlex | DisplayBlock.

(** A child of [#messages] as [createMessageElement] builds it: the role
    class, the instant shown in the header through [formatTime], and the
    [innerHTML] of its [.message-text] part.  [node] is the identity of the
    element; [welcome] marks the static element of class
    [welcome-message]. *)
Record MessageElement := mkElement {
  node : nat;
  welcome : bool;
  element_role : Role;
  element_time : Date;
  innerHTML : string
}.

Record Page := mkPage {
  messageInput_value : string;
  messageInput_focused : bool;
  messagesContainer : list MessageElement;
  typingIndicator_display : Display;
  statusDot_online : bool;
  statusText : string;
  errorMessage_text : string;
  errorToast_display : Display
}.

Inductive Method := GET | POST.

(** The object handed to [JSON.stringify] for the request body. *)
Record ChatRequestBody := mkChatRequestBody {
  message : string;
  conversation_history : list Message;
  use_knowledge_base : bool
}.

(** One call of [fetch]. *)
Record Request := mkRequest {
  url : string;
  method : Method;
  headers : list (string * string);
  body : option ChatRequestBody
}.

(** Callbacks registered with [setTimeout], with their delay in ms. *)
Inductive Timer := HideErrorToast | ScrollToBottom.

Definition timer_delay (t : Timer) : Z :=
  match t with HideErrorToast => 5000 | ScrollToBottom => 100 end.

Inductive ConsoleEntry :=
| ConsoleLog (text : string)
| ConsoleLogResponse (ok : bool) (status : Z)
| ConsoleError (label : string) (error : JsError).

Record World := mkWorld {
  state : ChatState;
  page : Page;
  network : list Request;
  console : list ConsoleEntry;
  timers : list Timer;
  next_node : nat
}.

Definition set_state (s : ChatState) (w : World) : World :=
  {| state := s; page := page w; network := network w;
     console := console w; timers := timers w; next_node := next_node w |}.

Definition set_page (p : Page) (w : World) : World :=
  {| state := state w; page := p; network := network w;
     console := console w; timers := timers w; next_node := next_node w |}.

(** [fetch(...)]: the request leaves. *)
Definition fetch (r : Request) (w : World) : World :=
  {| state := state w; page := page w; network := network w ++ [r];
     console := console w; timers := timers w; next_node := next_node w |}.

Definition console_write (e : ConsoleEntry) (w : World) : World :=
  {| state := state w; page := page w; network := network w;
     console := console w ++ [e]; timers := timers w;
     next_node := next_node w |}.

Definition setTimeout (t : Timer) (w : World) : World :=
  {| state := state w; page := page w; network := network w;
     console := console w; timers := timers w ++ [t];
     next_node := next_node w |}.

Definition bump_node (w : World) : World :=
  {| state := state w; page := page w; network := network w;
     console := console w; timers := timers w;
     next_node := S (next_node w) |}.

Definition set_messageInput_value (v : string) (p : Page) : Page :=
  {| messageInput_value := v;
     messageInput_focused := messageInput_focused p;
     messagesContainer := messagesContainer p;
     typingIndicator_display := typingIndicator_display p;
     statusDot_online := statusDot_online p;
     statusText := statusText p;
     errorMessage_text := errorMessage_text p;
     errorToast_display := errorToast_display p |}.

Definition set_messageInput_focused (b : bool) (p : Page) : Page :=
  {| messageInput_value := messageInput_value p;
     messageInput_focused := b;
     messagesContainer := messagesContainer p;
     typingIndicator_display := typingIndicator_display p;
     statusDot_online := statusDot_online p;
     statusText := statusText p;
     errorMessage_text := errorMessage_text p;
     errorToast_display := errorToast_display p |}.

Definition set_messagesContainer (l : list MessageElement) (p : Page) : Page :=
  {| messageInput_value := messageInput_value p;
     messageInput_focused := messageInput_focused p;
     messagesContainer := l;
     typingIndicator_display := typingIndicator_display p;
     statusDot_online := statusDot_online p;
     statusText := statusText p;
     errorMessage_text := errorMessage_text p;
     errorToast_display := errorToast_display p |}.

Definition set_typingIndicator_display (d : Display) (p : Page) : Page :=
  {| messageInput_value := messageInput_value p;
     messageInput_focused := messageInput_focused p;
     messagesContainer := messagesContainer p;
     typingIndicator_display := d;
     statusDot_online := statusDot_online p;
     statusText := statusText p;
     errorMessage_text := errorMessage_text p;
     errorToast_display := errorToast_display p |}.

Definition set_status (online : bool) (text : string) (p : Page) : Page :=
  {| messageInput_value := messageInput_value p;
     messageInput_focused := messageInput_focused p;
     messagesContainer := messagesContainer p;
     typingIndicator_display := typingIndicator_display p;
     statusDot_online := online;
     statusText := text;
     errorMessage_text := errorMessage_text p;
     errorToast_display := errorToast_display p |}.

Definition set_errorMessage_text (text : string) (p : Page) : Page :=
  {| messageInput_value := messageInput_value p;
     messageInput_focused := messageInput_focused p;
     messagesContainer := messagesContainer p;
     typingIndicator_display := typingIndicator_display p;
     statusDot_online := statusDot_online p;
     statusText := statusText p;
     errorMessage_text := text;
     errorToast_display := errorToast_display p |}.

Definition set_errorToast_display (d : Display) (p : Page) : Page :=
  {| messageInput_value := messageInput_value p;
     messageInput_focused := messageInput_focused p;
     messagesContainer := messagesContainer p;
     typingIndicator_display := typingIndicator_display p;
     statusDot_online := statusDot_online p;
     statusText := statusText p;
     errorMessage_text := errorMessage_text p;
     errorToast_display := d |}.

(** How a call ends: it returns, or an exception leaves it. *)
Inductive Completion :=
| Normal (w : World)
| Throw (e : JsError) (w : World).

(** What the page and the engine supply: [window.API_BASE_URL], [JSON.parse]
    (its SyntaxError when the text is not JSON), the TypeError raised by
    reading the named property of [null] and the TypeError raised when an
    object cannot be converted to a primitive value. *)
Record Host := mkHost {
  API_BASE_URL : option string;
  JSON_parse : string -> JsError + JsValue;
  TypeError_read_null : string -> JsError;
  TypeError_to_primitive : JsError
}.

(** What the network hands back.  A chunk is given by the text that
    [decoder.decode(value, {stream: true})] yields for it. *)
Record Response := mkResponse {
  status : Z;
  body_null : bool
}.

(** [response.ok] *)
Definition ok (r : Response) : bool :=
  (200 <=? status r)%Z && (status r <=? 299)%Z.

Inductive FetchResult :=
| FetchRejected (e : JsError)
| FetchResolved (r : Response).

Inductive ReadResult :=
| ReadRejected (e : JsError)
| ReadDone
| ReadChunk (text : string).

(** The health probe settles with a rejection (of [fetch] or of reading the
    body) or with the body text that [response.json()] parses. *)
Inductive HealthResult :=
| HealthRejected (e : JsError)
| HealthBody (text : string).

(** ** Rendering *)

(** [escapeHtml]: the serialisation of a text node. *)
Fixpoint escapeHtml (text : string) : string :=
  match text with
  | EmptyString => EmptyString
  | String c r =>
      (if Ascii.eqb c "&" then "&amp;"
       else if Ascii.eqb c "<" then "&lt;"
       else if Ascii.eqb c ">" then "&gt;"
       else if Ascii.eqb c "160" then "&nbsp;"
       else String c EmptyString) +++ escapeHtml r
  end.

Definition formatMessageContent (content : string) : string :=
  join_empty
    (map (fun line =>
            if str_empty (trim line) then EmptyString
            else "<p>" +++ escapeHtml line +++ "</p>")
         (split LF content)).

(** ** The functions of the script *)

Definition scrollToBottom (w : World) : World := setTimeout ScrollToBottom w.

Definition showTypingIndicator (w : World) : World :=
  scrollToBottom
    (set_page (set_typingIndicator_display DisplayFlex (page w)) w).

Definition hideTypingIndicator (w : World) : World :=
  set_page (set_typingIndicator_display DisplayNone (page w)) w.

(** [showError]: the toast shows the text and a timer is set to hide it. *)
Definition showError (text : string) (w : World) : World :=
  setTimeout HideErrorToast
    (set_page
       (set_errorToast_display DisplayBlock
          (set_errorMessage_text text (page w))) w).

(** A timer fires. *)
Definition fire (t : Timer) (w : World) : World :=
  match t with
  | HideErrorToast =>
      set_page (set_errorToast_display DisplayNone (page w)) w
  | ScrollToBottom => w
  end.

Definition updateStatus (isOnline : bool) (w : World) : World :=
  set_page
    (set_status isOnline (if isOnline then "Online" else "Offline") (page w))
    w.

(** What an element holds once the HTML that [formatMessageContent]
    produces has been assigned to its [innerHTML]: the parser reads a
    carriage return as a line feed and drops the character U+0000; the
    paragraphs and the four character references come back as written. *)
Fixpoint innerHTML_parsed (html : string) : string :=
  match html with
  | EmptyString => EmptyString
  | String c r =>
      if Ascii.eqb c "013" then String LF (innerHTML_parsed r)
      else if Ascii.eqb c "000" then innerHTML_parsed r
      else String c (innerHTML_parsed r)
  end.

Definition createMessageElement (r : Role) (c : string) (t : Date)
    (w : World) : World * MessageElement :=
  (bump_node w,
   {| node := next_node w; welcome := false; element_role := r;
      element_time := t;
      innerHTML := innerHTML_parsed (formatMessageContent c) |}).

Definition appendChild (e : MessageElement) (w : World) : World :=
  set_page (set_messagesContainer (messagesContainer (page w) ++ [e]) (page w))
    w.

Definition displayUserMessage (m : Message) (w : World) : World :=
  let (w1, e) := createMessageElement user (content m) (timestamp m) w in
  appendChild e w1.

(** Returns the world and the element created. *)
Definition displayAssistantMessage (c : string) (t : Date) (w : World)
  : World * nat :=
  let (w1, e) := createMessageElement assistant c t w in
  (appendChild e w1, node e).

(** [textElement.innerHTML = html] for the text part of element [n]; an
    element no longer in the container changes nothing on the page. *)
Definition set_innerHTML (n : nat) (html : string) (w : World) : World :=
  set_page
    (set_messagesContainer
       (map (fun e =>
               if (node e =? n)%nat
               then {| node := node e; welcome := welcome e;
                       element_role := element_role e;
                       element_time := element_time e;
                       innerHTML := innerHTML_parsed html |}
               else e)
            (messagesContainer (page w)))
       (page w))
    w.

(** [handleClearChat]; [confirmed] is the answer to [confirm(...)]. *)
Definition handleClearChat (confirmed : bool) (w : World) : World :=
  if confirmed then
    let w1 := set_state (clearHistory (state w)) w in
    let w2 :=
      set_page
        (set_messagesContainer
           (filter welcome (messagesContainer (page w1))) (page w1)) w1 in
    set_page (set_messageInput_focused true (page w2)) w2
  else w.

Section Chat.

Variable host : Host.

Definition apiUrl (endpoint : string) : string :=
  apiBaseUrl (CONFIG (API_BASE_URL host)) +++ endpoint.

(** *** checkHealth *)

(** Up to [await fetch(...)]. *)
Definition checkHealth_call (w : World) : World :=
  fetch {| url := apiUrl (endpoint_health (CONFIG (API_BASE_URL host)));
           method := GET; headers := []; body := None |} w.

(** The [try] block from the point where the probe settles. *)
Definition checkHealth_try (r : HealthResult) (w : World) : Completion :=
  match r with
  | HealthRejected e => Throw e w
  | HealthBody text =>
      match JSON_parse host text with
      | inl e => Throw e w
      | inr data =>
          match js_get data "bedrock_configured", js_get data "status" with
          | Some configured, Some st =>
              let isHealthy' :=
                js_and configured (JBool (strict_eq_string st "healthy")) in
              let w1 := updateStatus (truthy isHealthy') w in
              Normal (set_state (set_isHealthy isHealthy' (state w1)) w1)
          | _, _ => Throw (TypeError_read_null host "bedrock_configured") w
          end
      end
  end.

Definition checkHealth_catch (error : JsError) (w : World) : Completion :=
  let w1 := console_write (ConsoleError "Health check failed:" error) w in
  let w2 := updateStatus false w1 in
  Normal (set_state (set_isHealthy (JBool false) (state w2)) w2).

(** [checkHealth], resumed when the probe settles. *)
Definition checkHealth (r : HealthResult) (w : World) : Completion :=
  match checkHealth_try r w with
  | Normal w' => Normal w'
  | Throw e w' => checkHealth_catch e w'
  end.


(** *** streamChatResponse *)

(** The locals of one activation, kept while it is suspended. *)
Record StreamTask := mkStreamTask {
  streamedContent : string;
  startTime : Date;
  messageElement : option nat
}.

(** A step of an asynchronous function ends suspended at an [await] or with
    the function's completion. *)
Inductive Resumed :=
| Suspended (w : World) (t : StreamTask)
| Returned (c : Completion).

(** One [line] of a chunk: the body of the [for] loop. *)
Definition process_line (line : string) (wt : World * StreamTask)
  : World * StreamTask :=
  let (w, t) := wt in
  if startsWith "data: " line then
    let data := substring_from 6 line in
    if str_empty (trim data) then (w, t)
    else
      match JSON_parse host data with
      | inl e => (console_write (ConsoleError "Error parsing SSE data:" e) w, t)
      | inr parsed =>
          match js_get parsed "done", js_get parsed "content" with
          | Some done, Some fragment =>
              if truthy done then (w, t)
              else if truthy fragment then
                match ToString fragment with
                | None =>
                    (console_write
                       (ConsoleError "Error parsing SSE data:"
                          (TypeError_to_primitive host)) w, t)
                | Some text =>
                    let streamedContent' := streamedContent t +++ text in
                    match messageElement t with
                    | None =>
                        let (w1, el) :=
                          displayAssistantMessage streamedContent'
                            (startTime t) w in
                        (scrollToBottom w1,
                         {| streamedContent := streamedContent';
                            startTime := startTime t;
                            messageElement := Some el |})
                    | Some el =>
                        let w1 :=
                          set_innerHTML el
                            (formatMessageContent streamedContent') w in
                        (scrollToBottom w1,
                         {| streamedContent := streamedContent';
                            startTime := startTime t;
                            messageElement := Some el |})
                    end
                end
              else (w, t)
          | _, _ =>
              (console_write
                 (ConsoleError "Error parsing SSE data:"
                    (TypeError_read_null host "done")) w, t)
          end
      end
  else (w, t).

(** One chunk: [chunk.split] at line feeds, then the [for] loop. *)
Definition process_chunk (chunk : string) (wt : World * StreamTask)
  : World * StreamTask :=
  fold_left (fun acc line => process_line line acc) (split LF chunk) wt.

(** The [catch] block; [now] is its [new Date()]. *)
Definition stream_catch (error : JsError) (now : Date) (w : World) : World :=
  let w1 := console_write (ConsoleError "Error streaming response:" error) w in
  let w2 := hideTypingIndicator w1 in
  let w3 := showError ("Failed to get response: " +++ error_message error) w2 in
  fst (displayAssistantMessage
         "Sorry, I encountered an error. Please try again." now w3).

(** The [finally] block. *)
Definition stream_finally (w : World) : World :=
  set_state (set_isStreaming false (state w)) w.

(** [try { ... } catch (error) { ... } finally { ... }] around a step of the
    [try] block. *)
Definition try_catch_finally (now : Date) (r : Resumed) : Resumed :=
  match r with
  | Suspended w t => Suspended w t
  | Returned (Normal w) => Returned (Normal (stream_finally w))
  | Returned (Throw e w) =>
      Returned (Normal (stream_finally (stream_catch e now w)))
  end.

(** From the call to [await fetch(...)]; [now] is [startTime]. *)
Definition streamChatResponse_call (msg : string) (now : Date) (w : World)
  : Resumed :=
  let w1 := set_state (set_isStreaming true (state w)) w in
  let t := {| streamedContent := EmptyString; startTime := now;
              messageElement := None |} in
  let w2 := console_write (ConsoleLog "here") w1 in
  try_catch_finally now
    (Suspended
       (fetch {| url := apiUrl (endpoint_chatStream
                                  (CONFIG (API_BASE_URL host)));
                 method := POST;
                 headers := [("Content-Type", "application/json")];
                 body := Some {| message := msg;
                                 conversation_history := getHistory (state w2);
                                 use_knowledge_base := true |} |} w2)
       t).

(** [new Error(`HTTP error! status: ${response.status}`)] *)
Definition http_error (response : Response) : JsError :=
  {| error_name := "Error";
     error_message :=
       "HTTP error! status: " +++ string_of_Z (status response) |}.

(** From the settling of [fetch] to the first [await reader.read()]. *)
Definition streamChatResponse_fetched (r : FetchResult) (now : Date)
    (w : World) (t : StreamTask) : Resumed :=
  try_catch_finally now
    match r with
    | FetchRejected e => Returned (Throw e w)
    | FetchResolved response =>
        let w1 :=
          console_write (ConsoleLogResponse (ok response) (status response)) w
        in
        if negb (ok response) then
          Returned (Throw (http_error response) w1)
        else if body_null response then
          Returned (Throw (TypeError_read_null host "getReader") w1)
        else Suspended (hideTypingIndicator w1) t
    end.

(** From the settling of one [reader.read()] to the next, or to the end. *)
Definition streamChatResponse_read (r : ReadResult) (now : Date)
    (w : World) (t : StreamTask) : Resumed :=
  try_catch_finally now
    match r with
    | ReadRejected e => Returned (Throw e w)
    | ReadDone =>
        let (s', _) :=
          addMessage assistant (streamedContent t) (startTime t) (state w) in
        Returned (Normal (set_state s' w))
    | ReadChunk text =>
        let (w', t') := process_chunk text (w, t) in
        Suspended w' t'
    end.

(** *** handleSendMessage *)

(** From the call to its first suspension or its return; [now] is the
    [new Date()] of the user message, [now'] the one of [startTime]. *)
Definition handleSendMessage (now now' : Date) (w : World) : Resumed :=
  let msg := trim (messageInput_value (page w)) in
  if str_empty msg then Returned (Normal w)
  else if isStreaming (state w) then
    Returned
      (Normal (showError "Please wait for the current response to complete" w))
  else if negb (truthy (isHealthy (state w))) then
    Returned
      (Normal (showError "Backend is offline. Please check your connection." w))
  else
    let w1 := set_page (set_messageInput_value EmptyString (page w)) w in
    let (s', userMessage) := addMessage user msg now (state w1) in
    let w2 := set_state s' w1 in
    let w3 := displayUserMessage userMessage w2 in
    let w4 := scrollToBottom w3 in
    let w5 := showTypingIndicator w4 in
    let w6 := console_write (ConsoleLog "there") w5 in
    streamChatResponse_call msg now' w6.

(** *** One exchange, run without interleaving *)

(** What the environment supplies to one call of [handleSendMessage]: three
    clock readings, how [fetch] settles ([None]: it never does) and how the
    successive [reader.read()] calls settle (none left: the next one never
    does). *)
Record Exchange := mkExchange {
  sentAt : Date;
  startedAt : Date;
  failedAt : Date;
  fetched : option FetchResult;
  reads : list ReadResult
}.

Fixpoint resume_reads (rs : list ReadResult) (now : Date) (r : Resumed)
  : Resumed :=
  match r, rs with
  | Suspended w t, x :: rest =>
      resume_reads rest now (streamChatResponse_read x now w t)
  | _, _ => r
  end.

(** A call suspended on [fetch], taken through the exchange [x]: nothing
    is read before [fetch] has settled. *)
Definition settle (x : Exchange) (r : Resumed) : Resumed :=
  match r, fetched x with
  | Suspended w t, Some f =>
      resume_reads (reads x) (failedAt x)
        (streamChatResponse_fetched f (failedAt x) w t)
  | _, _ => r
  end.

(** [streamChatResponse(msg)] against the exchange [x]. *)
Definition streamChatResponse (msg : string) (x : Exchange) (w : World)
  : Resumed :=
  settle x (streamChatResponse_call msg (startedAt x) w).

(** The send action against the exchange [x]. *)
Definition sendMessage (x : Exchange) (w : World) : Resumed :=
  settle x (handleSendMessage (sentAt x) (startedAt x) w).

(** The worlds at which the exchange is suspended, in order, up to its
    completion. *)
Fixpoint suspensions_reads (rs : list ReadResult) (now : Date) (r : Resumed)
  : list World :=
  match r with
  | Returned _ => []
  | Suspended w t =>
      w :: match rs with
           | [] => []
           | x :: rest =>
               suspensions_reads rest now (streamChatResponse_read x now w t)
           end
  end.

Definition suspensions (x : Exchange) (w : World) : list World :=
  match handleSendMessage (sentAt x) (startedAt x) w with
  | Returned _ => []
  | Suspended w1 t1 =>
      w1 :: match fetched x with
            | None => []
            | Some f =>
                suspensions_reads (reads x) (failedAt x)
                  (streamChatResponse_fetched f (failedAt x) w1 t1)
            end
  end.

End Chat.

(** ** A host to run examples on *)

Module SampleHost.

(** A reader for the JSON texts whose numbers are integers of at most
    fifteen digits, which are their own canonical rendering; on any other
    number it gives up with an error.  String escapes beyond U+00FF are
    outside the string model and rejected as well. *)

Definition SyntaxError : JsError :=
  {| error_name := "SyntaxError";
     error_message := "Unexpected token in JSON" |}.

Definition isJsonSpace (c : ascii) : bool :=
  let n := nat_of_ascii c in
  (n =? 32)%nat || (n =? 9)%nat || (n =? 10)%nat || (n =? 13)%nat.

Fixpoint skip_ws (s : string) : string :=
  match s with
  | String c r => if isJsonSpace c then skip_ws r else s
  | EmptyString => EmptyString
  end.

Definition isDigit (c : ascii) : bool :=
  let n := nat_of_ascii c in (48 <=? n)%nat && (n <=? 57)%nat.

Fixpoint take_digits (s : string) : string * string :=
  match s with
  | String c r =>
      if isDigit c then let (d, rest) := take_digits r in (String c d, rest)
      else (EmptyString, s)
  | EmptyString => (EmptyString, EmptyString)
  end.

Definition hex_value (c : ascii) : option nat :=
  let n := nat_of_ascii c in
  if (48 <=? n)%nat && (n <=? 57)%nat then Some (n - 48)
  else if (65 <=? n)%nat && (n <=? 70)%nat then Some (n - 55)
  else if (97 <=? n)%nat && (n <=? 102)%nat then Some (n - 87)
  else None.

(** The characters of a string literal after its opening quote. *)
Fixpoint parse_chars (s : string) : option (string * string) :=
  match s with
  | EmptyString => None
  | String c r =>
      if Ascii.eqb c DQUOTE then Some (EmptyString, r)
      else if Ascii.eqb c "\" then
        match r with
        | String e r1 =>
            let simple (x : ascii) :=
              match parse_chars r1 with
              | Some (body, rest) => Some (String x body, rest)
              | None => None
              end in
            if Ascii.eqb e DQUOTE then simple DQUOTE
            else if Ascii.eqb e "\" then simple "\"%char
            else if Ascii.eqb e "/" then simple "/"%char
            else if Ascii.eqb e "b" then simple "008"%char
            else if Ascii.eqb e "f" then simple "012"%char
            else if Ascii.eqb e "n" then simple "010"%char
            else if Ascii.eqb e "r" then simple "013"%char
            else if Ascii.eqb e "t" then simple "009"%char
            else if Ascii.eqb e "u" then
              match r1 with
              | String h1 (String h2 (String h3 (String h4 r2))) =>
                  match hex_value h1, hex_value h2, hex_value h3, hex_value h4,
                        parse_chars r2 with
                  | Some 0, Some 0, Some a, Some b, Some (body, rest) =>
                      Some (String (ascii_of_nat (16 * a + b)) body, rest)
                  | _, _, _, _, _ => None
                  end
              | _ => None
              end
            else None
        | EmptyString => None
        end
      else if (nat_of_ascii c <? 32)%nat then None
      else
        match parse_chars r with
        | Some (body, rest) => Some (String c body, rest)
        | None => None
        end
  end.

Definition starts_number_tail (s : string) : bool :=
  match s with
  | String c _ =>
      Ascii.eqb c "." || Ascii.eqb c "e" || Ascii.eqb c "E" || isDigit c
  | EmptyString => false
  end.

Definition parse_number (s : string) : option (JsValue * string) :=
  let (negative, s1) :=
    match s with
    | String c r => if Ascii.eqb c "-" then (true, r) else (false, s)
    | EmptyString => (false, s)
    end in
  match s1 with
  | String c r =>
      if Ascii.eqb c "0" then
        if starts_number_tail r then None else Some (JNumber "0", r)
      else if isDigit c then
        let (digits, rest) := take_digits s1 in
        if starts_number_tail rest then None
        else if (15 <? String.length digits)%nat then None
        else Some (JNumber (if negative then "-" +++ digits else digits), rest)
      else None
  | EmptyString => None
  end.

Definition expect (lit : string) (v : JsValue) (s : string)
  : option (JsValue * string) :=
  if String.prefix lit s
  then Some (v, substring_from (String.length lit) s)
  else None.

Fixpoint parse_value (fuel : nat) (s : string) {struct fuel}
  : option (JsValue * string) :=
  match fuel with
  | O => None
  | S f =>
      match skip_ws s with
      | EmptyString => None
      | String c r =>
          if Ascii.eqb c "{" then
            match skip_ws r with
            | String c1 r1 =>
                if Ascii.eqb c1 "}" then Some (JObject [], r1)
                else
                  match parse_members f (String c1 r1) with
                  | Some (ms, rest) => Some (JObject ms, rest)
                  | None => None
                  end
            | EmptyString => None
            end
          else if Ascii.eqb c "[" then
            match skip_ws r with
            | String c1 r1 =>
                if Ascii.eqb c1 "]" then Some (JArray [], r1)
                else
                  match parse_items f (String c1 r1) with
                  | Some (vs, rest) => Some (JArray vs, rest)
                  | None => None
                  end
            | EmptyString => None
            end
          else if Ascii.eqb c DQUOTE then
            match parse_chars r with
            | Some (body, rest) => Some (JString body, rest)
            | None => None
            end
          else if Ascii.eqb c "t" then expect "true" (JBool true) (String c r)
          else if Ascii.eqb c "f" then expect "false" (JBool false) (String c r)
          else if Ascii.eqb c "n" then expect "null" JNull (String c r)
          else parse_number (String c r)
      end
  end
with parse_members (fuel : nat) (s : string) {struct fuel}
  : option (list (string * JsValue) * string) :=
  match fuel with
  | O => None
  | S f =>
      match skip_ws s with
      | String c r =>
          if Ascii.eqb c DQUOTE then
            match parse_chars r with
            | Some (key, r1) =>
                match skip_ws r1 with
                | String c2 r2 =>
                    if Ascii.eqb c2 ":" then
                      match parse_value f r2 with
                      | Some (v, r3) =>
                          match skip_ws r3 with
                          | String c4 r4 =>
                              if Ascii.eqb c4 "}" then Some ([(key, v)], r4)
                              else if Ascii.eqb c4 "," then
                                match parse_members f r4 with
                                | Some (ms, r5) => Some ((key, v) :: ms, r5)
                                | None => None
                                end
                              else None
                          | EmptyString => None
                          end
                      | None => None
                      end
                    else None
                | EmptyString => None
                end
            | None => None
            end
          else None
      | EmptyString => None
      end
  end
with parse_items (fuel : nat) (s : string) {struct fuel}
  : option (list JsValue * string) :=
  match fuel with
  | O => None
  | S f =>
      match parse_value f s with
      | Some (v, r1) =>
          match skip_ws r1 with
          | String c2 r2 =>
              if Ascii.eqb c2 "]" then Some ([v], r2)
              else if Ascii.eqb c2 "," then
                match parse_items f r2 with
                | Some (vs, r3) => Some (v :: vs, r3)
                | None => None
                end
              else None
          | EmptyString => None
          end
      | None => None
      end
  end.

Definition parse (text : string) : JsError + JsValue :=
  match parse_value (2 * String.length text + 2) text with
  | Some (v, rest) =>
      if str_empty (skip_ws rest) then inr v else inl SyntaxError
  | None => inl SyntaxError
  end.

Definition read_null (property : string) : JsError :=
  {| error_name := "TypeError";
     error_message :=
       "Cannot read properties of null (reading '" +++ property +++ "')" |}.

Definition to_primitive : JsError :=
  {| error_name := "TypeError";
     error_message := "Cannot convert object to primitive value" |}.

Definition host : Host :=
  {| API_BASE_URL := None;
     JSON_parse := parse;
     TypeError_read_null := read_null;
     TypeError_to_primitive := to_primitive |}.

(** [q s] is [s] between double quotes. *)
Definition q (s : string) : string :=
  String DQUOTE s +++ String DQUOTE EmptyString.

End SampleHost.

(** ** Sample worlds *)

Definition sample_page : Page :=
  {| messageInput_value := EmptyString;
     messageInput_focused := false;
     messagesContainer :=
       [{| node := 0; welcome := true; element_role := assistant;
           element_time := 0%Z; innerHTML := "<p>Welcome, summoner.</p>" |}];
     typingIndicator_display := DisplayNone;
     statusDot_online := false;
     statusText := "Connecting...";
     errorMessage_text := EmptyString;
     errorToast_display := DisplayNone |}.

(** The world once the script has loaded. *)
Definition sample_world : World :=
  {| state := ChatState_new; page := sample_page; network := [];
     console := []; timers := []; next_node := 1 |}.

(** The user edits the text area. *)
Definition type_text (text : string) (w : World) : World :=
  set_page (set_messageInput_value text (page w)) w.

Definition mark_healthy (w : World) : World :=
  set_state (set_isHealthy (JBool true) (state w)) w.

Definition mark_streaming (w : World) : World :=
  set_state (set_isStreaming true (state w)) w.

(** ** Predicates of the statements *)

(** The three preconditions of a send, as [handleSendMessage] tests them. *)
Definition preconditions (w : World) : bool :=
  negb (str_empty (trim (messageInput_value (page w))))
  && negb (isStreaming (state w))
  && truthy (isHealthy (state w)).

(** A transient notice went up between [w] and [w']: the toast is shown and
    the timer that hides it was armed. *)
Definition surfaces_notice (w w' : World) : Prop :=
  errorToast_display (page w') = DisplayBlock
  /\ timers w' = timers w ++ [HideErrorToast].

(** ** Frames and failures, for the statements *)

Section Frames.

Variable host : Host.

(** [line] is a data line whose payload is not blank and parses to [v]. *)
Definition frame (line : string) (v : JsValue) : Prop :=
  startsWith "data: " line = true
  /\ str_empty (trim (substring_from 6 line)) = false
  /\ JSON_parse host (substring_from 6 line) = inr v.

(** What the inner [try] raises on a line, if anything: the line is a data
    line with a payload that is not blank, and the payload is not JSON, or
    is the JSON text null, or carries, without a truthy [done], a content
    that cannot be converted to a string. *)
Definition line_error (line : string) : option JsError :=
  if startsWith "data: " line then
    let data := substring_from 6 line in
    if str_empty (trim data) then None
    else
      match JSON_parse host data with
      | inl e => Some e
      | inr parsed =>
          match js_get parsed "done", js_get parsed "content" with
          | Some done, Some fragment =>
              if truthy done then None
              else if truthy fragment then
                match ToString fragment with
                | None => Some (TypeError_to_primitive host)
                | Some _ => None
                end
              else None
          | _, _ => Some (TypeError_read_null host "done")
          end
      end
  else None.

Definition malformed (line : string) : bool :=
  match line_error line with Some _ => true | None => false end.

(** The fragment a line delivers, if it delivers one. *)
Definition line_fragment (line : string) : option string :=
  if startsWith "data: " line then
    let data := substring_from 6 line in
    if str_empty (trim data) then None
    else
      match JSON_parse host data with
      | inl _ => None
      | inr parsed =>
          match js_get parsed "done", js_get parsed "content" with
          | Some done, Some fragment =>
              if truthy done then None
              else if truthy fragment then ToString fragment
              else None
          | _, _ => None
          end
      end
  else None.

(** The fragments of a sequence of lines, concatenated in order. *)
Fixpoint stream_text (lines : list string) : string :=
  match lines with
  | [] => EmptyString
  | line :: rest =>
      match line_fragment line with
      | Some f => f +++ stream_text rest
      | None => stream_text rest
      end
  end.

(** The data lines of a chunk that are not malformed. *)
Definition sound (line : string) : bool :=
  startsWith "data: " line && negb (malformed line).

Definition sound_lines (chunk : string) : list string :=
  filter sound (split LF chunk).

(** The first transport-level failure of an exchange, if it has one: a
    rejected [fetch], a status outside 200..299, a response without body, or
    a rejected [read] before the end of the stream. *)
Fixpoint read_failure (rs : list ReadResult) : option JsError :=
  match rs with
  | [] => None
  | ReadRejected e :: _ => Some e
  | ReadDone :: _ => None
  | ReadChunk _ :: rest => read_failure rest
  end.

Definition transport_failure (x : Exchange) : option JsError :=
  match fetched x with
  | None => None
  | Some (FetchRejected e) => Some e
  | Some (FetchResolved r) =>
      if negb (ok r) then Some (http_error r)
      else if body_null r then Some (TypeError_read_null host "getReader")
      else read_failure (reads x)
  end.

End Frames.

(** Whether the transport ever answers for good: [fetch] settles and, when
    a body is being read, some [read] reports the end or fails. *)
Definition read_ends (r : ReadResult) : bool :=
  match r with ReadChunk _ => false | _ => true end.

Definition settles (x : Exchange) : bool :=
  match fetched x with
  | None => false
  | Some (FetchRejected _) => true
  | Some (FetchResolved r) =>
      negb (ok r) || body_null r || existsb read_ends (reads x)
  end.

(** The user message a send appends, and the request it issues. *)
Definition user_message (now : Date) (w : World) : Message :=
  {| role := user; content := trim (messageInput_value (page w));
     timestamp := now |}.

Definition chat_request (host : Host) (now : Date) (w : World) : Request :=
  {| url := apiUrl host (endpoint_chatStream (CONFIG (API_BASE_URL host)));
     method := POST;
     headers := [("Content-Type", "application/json")];
     body := Some {| message := trim (messageInput_value (page w));
                     conversation_history :=
                       conversationHistory (state w) ++ [user_message now w];
                     use_knowledge_base := true |} |}.

(** The element the [catch] block adds to the page. *)
Definition fallback_element (n : nat) (now : Date) : MessageElement :=
  {| node := n; welcome := false; element_role := assistant;
     element_time := now;
     innerHTML := "<p>Sorry, I encountered an error. Please try again.</p>" |}.

(** Two worlds that differ at most in what the console holds. *)
Definition same_but_console (w1 w2 : World) : Prop :=
  state w1 = state w2 /\ page w1 = page w2 /\ network w1 = network w2
  /\ timers w1 = timers w2 /\ next_node w1 = next_node w2.

(** The body of [if (parsed.content)], for the fragment [f]. *)
Definition show_fragment (f : string) (wt : World * StreamTask)
  : World * StreamTask :=
  let (w, t) := wt in
  let streamedContent' := streamedContent t +++ f in
  let t' := {| streamedContent := streamedContent';
               startTime := startTime t;
               messageElement :=
                 Some match messageElement t with
                      | Some el => el
                      | None => next_node w
                      end |} in
  match messageElement t with
  | None =>
      (scrollToBottom
         (fst (displayAssistantMessage streamedContent' (startTime t) w)), t')
  | Some el =>
      (scrollToBottom
         (set_innerHTML el (formatMessageContent streamedContent') w), t')
  end.

(** The console entries of the malformed lines among [lines], in order. *)
Definition logged_errors (host : Host) (lines : list string)
  : list ConsoleEntry :=
  flat_map (fun line =>
              match line_error host line with
              | Some e => [ConsoleError "Error parsing SSE data:" e]
              | None => []
              end) lines.

(** The [for] loop over the lines of a chunk. *)
Definition process_lines (host : Host) (lines : list string)
    (wt : World * StreamTask) : World * StreamTask :=
  fold_left (fun acc line => process_line host line acc) lines wt.

(** The first reading of a response whose status is in 200..299 and which
    has a body. *)
Definition streamable (f : option FetchResult) : bool :=
  match f with
  | Some (FetchResolved r) => ok r && negb (body_null r)
  | _ => false
  end.

(** The locals of an activation that has just been called. *)
Definition fresh_task (now : Date) : StreamTask :=
  {| streamedContent := EmptyString; startTime := now;
     messageElement := None |}.

(** The exchange [x] with other readings of the body. *)
Definition with_reads (rs : list ReadResult) (x : Exchange) : Exchange :=
  {| sentAt := sentAt x; startedAt := startedAt x; failedAt := failedAt x;
     fetched := fetched x; reads := rs |}.

(** A body that delivers [chunks] and then reports its end. *)
Definition complete_body (chunks : list string) (tail : list ReadResult)
  : list ReadResult :=
  map ReadChunk chunks ++ ReadDone :: tail.

(** All lines of a sequence of chunks, in arrival order. *)
Definition lines_of (chunks : list string) : list string :=
  flat_map (split LF) chunks.

(** ** Sample streams *)

Module Sample.

Import SampleHost.

(** One event of the stream: the data line and the blank line after it. *)
Definition sse (payload : string) : string :=
  "data: " +++ payload +++ String LF (String LF EmptyString).

Definition content_frame (text : string) : string :=
  "{" +++ q "content" +++ ": " +++ q text +++ "}".

Definition done_frame : string := "{" +++ q "done" +++ ": true}".

Definition ok_response : FetchResult :=
  FetchResolved {| status := 200%Z; body_null := false |}.

(** A healthy idle session with a message typed in. *)
Definition ready_world : World :=
  mark_healthy (type_text "hello" sample_world).

Definition exchange (rs : list ReadResult) : Exchange :=
  {| sentAt := 1000%Z; startedAt := 1001%Z; failedAt := 2000%Z;
     fetched := Some ok_response; reads := rs |}.

(** The stream of the greeting, cut after its first event. *)
Definition greeting : list string :=
  [sse (content_frame "Hi"); sse (content_frame " there") +++ sse done_frame].

(** A stream without any fragment. *)
Definition silent : list string :=
  ["data: {oops" +++ String LF EmptyString; sse done_frame].

(** The greeting with two malformed frames in between, and without. *)
Definition noisy : list string :=
  [sse (content_frame "Hi") +++ sse "{oops" +++ sse "null"
   +++ sse (content_frame " there")].

Definition clean : list string :=
  [sse (content_frame "Hi") +++ sse (content_frame " there")].

End Sample.

(** The world at the last suspension of an exchange ([w] when the call
    returns without suspending). *)
Definition last_suspension (host : Host) (x : Exchange) (w : World) : World :=
  last (suspensions host x w) w.

(** ** The event loop *)

(** The handlers run one at a time; an asynchronous call gives way at each
    [await] and is resumed by the event that settles what it waits for.  A
    session is the world together with the suspended activations of
    [streamChatResponse] and the number of health probes in flight. *)
Inductive Await := AwaitFetch | AwaitRead.

Definition Await_eqb (a b : Await) : bool :=
  match a, b with
  | AwaitFetch, AwaitFetch | AwaitRead, AwaitRead => true
  | _, _ => false
  end.

Record Session := mkSession {
  world : World;
  streams : list (Await * StreamTask);
  probes : nat
}.

Inductive Event :=
| Typed (text : string)
| SendClicked (now now' : Date)
| ClearClicked (confirmed : bool)
| HealthTick
| HealthSettled (r : HealthResult)
| FetchSettled (i : nat) (f : FetchResult) (now : Date)
| ReadSettled (i : nat) (r : ReadResult) (now : Date)
| TimerFired (t : Timer).

(** The world a completed call leaves behind. *)
Definition outcome (c : Completion) : World :=
  match c with Normal w => w | Throw _ w => w end.

Fixpoint replace_nth {A} (i : nat) (x : A) (l : list A) : list A :=
  match i, l with
  | _, [] => []
  | O, _ :: rest => x :: rest
  | S j, y :: rest => y :: replace_nth j x rest
  end.

Fixpoint remove_nth {A} (i : nat) (l : list A) : list A :=
  match i, l with
  | _, [] => []
  | O, _ :: rest => rest
  | S j, y :: rest => y :: remove_nth j rest
  end.

Fixpoint remove_timer (t : Timer) (l : list Timer) : option (list Timer) :=
  match l with
  | [] => None
  | t' :: rest =>
      match t, t' with
      | HideErrorToast, HideErrorToast | ScrollToBottom, ScrollToBottom =>
          Some rest
      | _, _ =>
          match remove_timer t rest with
          | Some rest' => Some (t' :: rest')
          | None => None
          end
      end
  end.

Definition set_timers (l : list Timer) (w : World) : World :=
  {| state := state w; page := page w; network := network w;
     console := console w; timers := l; next_node := next_node w |}.

Section Loop.

Variable host : Host.

(** Activation [i], if it waits for [a], goes on with [k]. *)
Definition resume (i : nat) (a : Await)
    (k : World -> StreamTask -> Resumed) (s : Session) : Session :=
  match nth_error (streams s) i with
  | Some (a', t) =>
      if Await_eqb a' a then
        match k (world s) t with
        | Suspended w' t' =>
            {| world := w';
               streams := replace_nth i (AwaitRead, t') (streams s);
               probes := probes s |}
        | Returned c =>
            {| world := outcome c;
               streams := remove_nth i (streams s);
               probes := probes s |}
        end
      else s
  | None => s
  end.

Definition step (ev : Event) (s : Session) : Session :=
  match ev with
  | Typed text =>
      {| world := type_text text (world s); streams := streams s;
         probes := probes s |}
  | SendClicked now now' =>
      match handleSendMessage host now now' (world s) with
      | Suspended w' t' =>
          {| world := w'; streams := streams s ++ [(AwaitFetch, t')];
             probes := probes s |}
      | Returned c =>
          {| world := outcome c; streams := streams s; probes := probes s |}
      end
  | ClearClicked confirmed =>
      {| world := handleClearChat confirmed (world s); streams := streams s;
         probes := probes s |}
  | HealthTick =>
      {| world := checkHealth_call host (world s); streams := streams s;
         probes := S (probes s) |}
  | HealthSettled r =>
      match probes s with
      | O => s
      | S n =>
          {| world := outcome (checkHealth host r (world s));
             streams := streams s; probes := n |}
      end
  | FetchSettled i f now =>
      resume i AwaitFetch (streamChatResponse_fetched host f now) s
  | ReadSettled i r now =>
      resume i AwaitRead (streamChatResponse_read host r now) s
  | TimerFired t =>
      match remove_timer t (timers (world s)) with
      | Some rest =>
          {| world := fire t (set_timers rest (world s));
             streams := streams s; probes := probes s |}
      | None => s
      end
  end.

Definition run (evs : list Event) (s : Session) : Session :=
  fold_left (fun acc ev => step ev acc) evs s.

End Loop.

(** The session once the script has loaded in world [w]. *)
Definition start (w : World) : Session :=
  {| world := set_state ChatState_new w; streams := []; probes := 0 |}.

(** The flag is up exactly while one activation is suspended, and there is
    never more than one. *)
Definition one_stream (s : Session) : Prop :=
  match streams s with
  | [] => isStreaming (state (world s)) = false
  | [_] => isStreaming (state (world s)) = true
  | _ => False
  end.

(** ** Counting characters and paragraphs, for the statements *)

(** How often the character [c] occurs in [s]. *)
Fixpoint count_char (c : ascii) (s : string) : nat :=
  match s with
  | EmptyString => 0
  | String x r => (if Ascii.eqb x c then 1 else 0) + count_char c r
  end.

(** A line that [formatMessageContent] drops. *)
Definition blank (line : string) : bool := str_empty (trim line).

(** The number of paragraphs a content is rendered to. *)
Definition paragraphs (content : string) : nat :=
  length (filter (fun line => negb (blank line)) (split LF content)).

(** ** Outcomes and requests, for the statements *)

(** The promise of an asynchronous call is rejected. *)
Definition rejects (r : Resumed) : bool :=
  match r with
  | Returned (Throw _ _) => true
  | _ => false
  end.

(** The request of the health probe. *)
Definition probe_request (host : Host) : Request :=
  {| url := apiUrl host "/api/health"; method := GET; headers := [];
     body := None |}.

(** A request to the streaming endpoint that asks for the knowledge base and
    whose history ends with the very message it sends, as a user message. *)
Definition stream_request (host : Host) (r : Request) : Prop :=
  url r = apiUrl host "/api/chat/stream"
  /\ method r = POST
  /\ headers r = [("Content-Type", "application/json")]
  /\ exists b earlier now,
       body r = Some b
       /\ use_knowledge_base b = true
       /\ conversation_history b =
          earlier ++ [{| role := user; content := message b;
                         timestamp := now |}].

Definition known_request (host : Host) (r : Request) : Prop :=
  r = probe_request host \/ stream_request host r.

(** The user confirms the clearing of the chat. *)
Definition confirmed_clear (ev : Event) : bool :=
  match ev with ClearClicked true => true | _ => false end.

(** The conversation history of a session. *)
Definition history (s : Session) : list Message :=
  conversationHistory (state (world s)).

(** ** The page, for the statements *)

(** The bubbles [createMessageElement] builds. *)
Definition user_element (n : nat) (time : Date) (text : string)
  : MessageElement :=
  {| node := n; welcome := false; element_role := user;
     element_time := time;
     innerHTML := innerHTML_parsed (formatMessageContent text) |}.

Definition assistant_element (n : nat) (time : Date) (text : string)
  : MessageElement :=
  {| node := n; welcome := false; element_role := assistant;
     element_time := time;
     innerHTML := innerHTML_parsed (formatMessageContent text) |}.

(** Elements are created with increasing identities: every element on the
    page was created before the next one will be. *)
Definition fresh_nodes (w : World) : bool :=
  forallb (fun e => (node e <? next_node w)%nat) (messagesContainer (page w)).

(** Some line among [lines] delivers a fragment. *)
Definition delivers (host : Host) (lines : list string) : bool :=
  existsb (fun line =>
             match line_fragment host line with
             | Some _ => true
             | None => false
             end) lines.

(** The element [el] is not one of the welcome elements of the page. *)
Definition not_welcome (el : nat) (w : World) : bool :=
  forallb (fun e => negb (node e =? el)%nat)
    (filter welcome (messagesContainer (page w))).

(** The bubble of a streaming activation, once it has one. *)
Definition bubble (t : StreamTask) : list MessageElement :=
  match messageElement t with
  | None => []
  | Some el => [assistant_element el (startTime t) (streamedContent t)]
  end.

(** The page of a streaming activation: the elements [pre] that were there
    before its bubble, created before [n0], and then its bubble, created
    as [n0], once a fragment has come. *)
Definition bubble_shown (pre : list MessageElement) (n0 : nat)
    (w : World) (t : StreamTask) : Prop :=
  messagesContainer (page w) = pre ++ bubble t
  /\ Forall (fun e => node e < n0) pre
  /\ match messageElement t with
     | None => next_node w = n0
     | Some el => el = n0 /\ next_node w = S n0
     end.

(** ** The suggestions panel *)

(** The panel and its button, either of which the page may lack ([None]:
    [getElementById] gave null): the [style.display] of the panel and
    whether the button carries the class [active].  What the handlers
    write to the console is kept here, apart from [console]. *)
Inductive PanelLog :=
| LogToggleClicked
| LogPanelElement (present : bool)
| LogCurrentDisplay (display : option Display)
| ErrorPanelNotFound
| LogOpening
| LogOpened (display : Display)
| LogClosing.

Record Suggestions := mkSuggestions {
  suggestionsPanel : option Display;
  suggestionsButton : option bool;
  panel_console : list PanelLog
}.

Definition panel_log (e : PanelLog) (p : Suggestions) : Suggestions :=
  {| suggestionsPanel := suggestionsPanel p;
     suggestionsButton := suggestionsButton p;
     panel_console := panel_console p ++ [e] |}.

Definition openSuggestionsPanel (p : Suggestions) : Suggestions :=
  let p1 := panel_log LogOpening p in
  match suggestionsPanel p1, suggestionsButton p1 with
  | Some _, Some _ =>
      panel_log (LogOpened DisplayBlock)
        {| suggestionsPanel := Some DisplayBlock;
           suggestionsButton := Some true;
           panel_console := panel_console p1 |}
  | _, _ => p1
  end.

Definition closeSuggestionsPanel (p : Suggestions) : Suggestions :=
  let p1 := panel_log LogClosing p in
  match suggestionsPanel p1, suggestionsButton p1 with
  | Some _, Some _ =>
      {| suggestionsPanel := Some DisplayNone;
         suggestionsButton := Some false;
         panel_console := panel_console p1 |}
  | _, _ => p1
  end.

Definition toggleSuggestions (p : Suggestions) : Suggestions :=
  let p1 := panel_log LogToggleClicked p in
  let p2 :=
    panel_log
      (LogPanelElement
         match suggestionsPanel p1 with Some _ => true | None => false end)
      p1 in
  let p3 := panel_log (LogCurrentDisplay (suggestionsPanel p2)) p2 in
  match suggestionsPanel p3 with
  | None => panel_log ErrorPanelNotFound p3
  | Some display =>
      let isVisible :=
        match display with DisplayBlock => true | _ => false end in
      if isVisible then closeSuggestionsPanel p3
      else openSuggestionsPanel p3
  end.

(** The value a text area gives back for the text assigned to it: a
    carriage return, alone or followed by a line feed, reads as one line
    feed. *)
Fixpoint textarea_value (text : string) : string :=
  match text with
  | EmptyString => EmptyString
  | String c r =>
      if Ascii.eqb c "013" then
        String LF
          match r with
          | String c' r' =>
              if Ascii.eqb c' LF then textarea_value r' else textarea_value r
          | EmptyString => EmptyString
          end
      else String c (textarea_value r)
  end.

(** [handleSuggestionClick]; [suggestion] is [dataset.suggestion] of the item
    clicked, [None] when the item has no such attribute, in which case the
    text area receives the text undefined. *)
Definition handleSuggestionClick (suggestion : option string)
    (wp : World * Suggestions) : World * Suggestions :=
  let (w, p) := wp in
  let suggestionText :=
    match suggestion with Some text => text | None => "undefined" end in
  let w1 :=
    set_page
      (set_messageInput_value (textarea_value suggestionText) (page w)) w in
  let p1 := closeSuggestionsPanel p in
  (set_page (set_messageInput_focused true (page w1)) w1, p1).

(** The panel is shown. *)
Definition panel_visible (p : Suggestions) : bool :=
  match suggestionsPanel p with Some DisplayBlock => true | _ => false end.

(** ** Sample sessions *)

Module Scenario.

Import SampleHost Sample.

(** The session while the greeting streams, after its first chunk. *)
Definition mid_stream : World * StreamTask :=
  match sendMessage host (exchange [ReadChunk (sse (content_frame "Hi"))])
          ready_world with
  | Suspended w t => (w, t)
  | Returned c => (match c with Normal w => w | Throw _ w => w end,
                   {| streamedContent := EmptyString; startTime := 0%Z;
                      messageElement := None |})
  end.

(** A session told healthy by a probe, with a message typed, sent and
    answered. *)
Definition healthy_body : string :=
  "{" +++ q "status" +++ ":" +++ q "healthy" +++ ","
  +++ q "bedrock_configured" +++ ":true}".

Definition conversation : list Event :=
  [HealthTick; HealthSettled (HealthBody healthy_body); Typed "hello";
   SendClicked 1000%Z 1001%Z; FetchSettled 0 ok_response 2000%Z;
   ReadSettled 0 (ReadChunk (sse (content_frame "Hi"))) 2000%Z;
   ReadSettled 0 ReadDone 2000%Z].

End Scenario.

(** * Properties *)

Lemma app_one_neq {A} (l : list A) (x : A) : l <> l ++ [x].
Proof.
  intro H. apply (f_equal (@List.length A)) in H.
  rewrite length_app in H. simpl in H. lia.
Qed.

Lemma no_notice_in_place (w : World) : ~ surfaces_notice w w.
Proof. intros [_ H]. exact (app_one_neq _ _ H). Qed.

(** ** The clear action *)

(** C9. After any number of messages, the confirmed clear action (and the
    [clearHistory] method it calls) leaves the conversation history empty
    and [isHealthy] as it was. *)
Theorem C9_clear_empties_history_keeps_health :
  forall (w : World),
    conversationHistory (state (handleClearChat true w)) = []
    /\ isHealthy (state (handleClearChat true w)) = isHealthy (state w)
    /\ conversationHistory (clearHistory (state w)) = []
    /\ isHealthy (clearHistory (state w)) = isHealthy (state w).
Proof. intros w. repeat split. Qed.

Lemma handleClearChat_declined (w : World) : handleClearChat false w = w.
Proof. reflexivity. Qed.

(** ** The send guard *)

Section SendGuard.

Variable host : Host.

Lemma send_empty now now' w :
  str_empty (trim (messageInput_value (page w))) = true ->
  handleSendMessage host now now' w = Returned (Normal w).
Proof. intros H. unfold handleSendMessage. rewrite H. reflexivity. Qed.

Lemma send_while_streaming now now' w :
  str_empty (trim (messageInput_value (page w))) = false ->
  isStreaming (state w) = true ->
  handleSendMessage host now now' w =
  Returned
    (Normal (showError "Please wait for the current response to complete" w)).
Proof. intros H1 H2. unfold handleSendMessage. rewrite H1, H2. reflexivity. Qed.

Lemma send_while_offline now now' w :
  str_empty (trim (messageInput_value (page w))) = false ->
  isStreaming (state w) = false ->
  truthy (isHealthy (state w)) = false ->
  handleSendMessage host now now' w =
  Returned
    (Normal (showError "Backend is offline. Please check your connection." w)).
Proof.
  intros H1 H2 H3. unfold handleSendMessage. rewrite H1, H2, H3. reflexivity.
Qed.

Lemma showError_notice text w : surfaces_notice w (showError text w).
Proof. split; reflexivity. Qed.

Lemma preconditions_false w :
  preconditions w = false ->
  str_empty (trim (messageInput_value (page w))) = true
  \/ (str_empty (trim (messageInput_value (page w))) = false
      /\ isStreaming (state w) = true)
  \/ (str_empty (trim (messageInput_value (page w))) = false
      /\ isStreaming (state w) = false
      /\ truthy (isHealthy (state w)) = false).
Proof.
  unfold preconditions.
  destruct (str_empty _), (isStreaming _), (truthy _); simpl; intros H;
    try discriminate; auto.
Qed.

(** C1, as the script has it. A send whose preconditions do not all hold
    returns at once, leaves the session state, the requests issued and the
    messages shown as they were; a transient notice goes up when the text
    is not blank, and nothing at all happens when it is. *)
Theorem C1_rejected_send :
  forall (now now' : Date) (w : World),
    preconditions w = false ->
    exists w',
      handleSendMessage host now now' w = Returned (Normal w')
      /\ state w' = state w
      /\ network w' = network w
      /\ messagesContainer (page w') = messagesContainer (page w)
      /\ if str_empty (trim (messageInput_value (page w)))
         then w' = w
         else surfaces_notice w w'.
Proof.
  intros now now' w H.
  destruct (preconditions_false w H) as [He | [[He Hs] | [He [Hs Hh]]]].
  - exists w. rewrite (send_empty _ _ _ He), He. repeat split.
  - eexists. rewrite (send_while_streaming _ _ _ He Hs), He.
    repeat split.
  - eexists. rewrite (send_while_offline _ _ _ He Hs Hh), He.
    repeat split.
Qed.

(** C2. While a response is streaming, a send issues no request and leaves
    the conversation history (indeed the whole session state) unchanged;
    the call returns at once, so nothing is queued. *)
Theorem C2_send_rejected_while_streaming :
  forall (now now' : Date) (w : World),
    isStreaming (state w) = true ->
    exists w',
      handleSendMessage host now now' w = Returned (Normal w')
      /\ network w' = network w
      /\ conversationHistory (state w') = conversationHistory (state w)
      /\ state w' = state w.
Proof.
  intros now now' w Hs.
  destruct (str_empty (trim (messageInput_value (page w)))) eqn:He.
  - exists w. rewrite (send_empty _ _ _ He). repeat split.
  - eexists. rewrite (send_while_streaming _ _ _ He Hs). repeat split.
Qed.

End SendGuard.

Lemma C1_rejected_send_witness :
  let w := mark_streaming (type_text "hello" sample_world) in
  preconditions w = false
  /\ exists w',
       handleSendMessage SampleHost.host 5%Z 6%Z w = Returned (Normal w')
       /\ state w' = state w
       /\ network w' = network w
       /\ messagesContainer (page w') = messagesContainer (page w)
       /\ surfaces_notice w w'.
Proof.
  split; [reflexivity |].
  exact (C1_rejected_send SampleHost.host 5%Z 6%Z
           (mark_streaming (type_text "hello" sample_world)) eq_refl).
Defined.

(** C1 as stated fails on blank text: the call returns without any notice. *)
Lemma C1_blank_text_no_notice :
  let w := mark_healthy (type_text "   " sample_world) in
  preconditions w = false
  /\ handleSendMessage SampleHost.host 5%Z 6%Z w = Returned (Normal w)
  /\ errorToast_display (page w) = DisplayNone
  /\ ~ surfaces_notice w w.
Proof.
  repeat split. apply no_notice_in_place.
Qed.

Lemma C2_send_rejected_while_streaming_witness :
  let w := mark_streaming (mark_healthy (type_text "again" sample_world)) in
  isStreaming (state w) = true
  /\ exists w',
       handleSendMessage SampleHost.host 5%Z 6%Z w = Returned (Normal w')
       /\ network w' = network w
       /\ conversationHistory (state w') = conversationHistory (state w)
       /\ state w' = state w.
Proof.
  split; [reflexivity |].
  exact (C2_send_rejected_while_streaming SampleHost.host 5%Z 6%Z
           (mark_streaming (mark_healthy (type_text "again" sample_world)))
           eq_refl).
Defined.

(** ** The health probe *)

Section Health.

Variable host : Host.

Lemma checkHealth_caught e w w' :
  checkHealth_catch e w = Normal w' ->
  isHealthy (state w') = JBool false.
Proof. intros H. injection H as <-. reflexivity. Qed.

Lemma strict_eq_string_true v s :
  strict_eq_string v s = true <-> v = JString s.
Proof.
  destruct v; simpl; split; intros H; try discriminate.
  - apply String.eqb_eq in H. now subst.
  - injection H as ->. apply String.eqb_refl.
Qed.

(** C6, as the script has it. [checkHealth] always returns normally.  It
    stores [true] in [isHealthy] exactly when the body parses to a value
    whose [status] is the string healthy and whose [bedrock_configured] is
    truthy (the boolean true or any other truthy value); in every other
    case, a failed transport and an unparsable body included, what it
    stores is falsy.  The status dot follows the stored value. *)
Theorem C6_checkHealth_outcome :
  forall (r : HealthResult) (w : World),
    exists w',
      checkHealth host r w = Normal w'
      /\ (isHealthy (state w') = JBool true <->
          exists text data configured,
            r = HealthBody text
            /\ JSON_parse host text = inr data
            /\ js_get data "bedrock_configured" = Some configured
            /\ truthy configured = true
            /\ js_get data "status" = Some (JString "healthy"))
      /\ (isHealthy (state w') <> JBool true ->
          truthy (isHealthy (state w')) = false)
      /\ statusDot_online (page w') = truthy (isHealthy (state w')).
Proof.
  intros r w. unfold checkHealth, checkHealth_try.
  destruct r as [e | text].
  { eexists. split; [reflexivity |]. simpl. repeat split; try discriminate.
    intros (t & d & c & H & _). discriminate. }
  destruct (JSON_parse host text) as [e | data] eqn:Hp.
  { eexists. split; [reflexivity |]. simpl. repeat split; try discriminate.
    intros (t & d & c & H & Hp' & _). injection H as <-.
    rewrite Hp in Hp'. discriminate. }
  destruct (js_get data "bedrock_configured") as [c |] eqn:Hc.
  2:{ eexists. split; [reflexivity |]. simpl. repeat split; try discriminate.
      intros (t & d & c & H & Hp' & Hc' & _). injection H as <-.
      rewrite Hp in Hp'. injection Hp' as <-. rewrite Hc in Hc'.
      discriminate. }
  destruct (js_get data "status") as [st |] eqn:Hst.
  2:{ eexists. split; [reflexivity |]. simpl. repeat split; try discriminate.
      intros (t & d & c' & H & Hp' & _ & _ & Hst'). injection H as <-.
      rewrite Hp in Hp'. injection Hp' as <-. rewrite Hst in Hst'.
      discriminate. }
  eexists. split; [reflexivity |]. simpl. unfold js_and.
  destruct (truthy c) eqn:Ht.
  - split; [split | split].
    + intros H. injection H as H. apply strict_eq_string_true in H. subst st.
      exists text, data, c. repeat split; assumption.
    + intros (t & d & c' & H & Hp' & Hc' & _ & Hst'). injection H as <-.
      rewrite Hp in Hp'. injection Hp' as <-. rewrite Hst in Hst'.
      injection Hst' as ->. reflexivity.
    + simpl. destruct (strict_eq_string st "healthy"); congruence.
    + reflexivity.
  - split; [split | split].
    + intros H. rewrite H in Ht. discriminate.
    + intros (t & d & c' & H & Hp' & Hc' & Ht' & _). injection H as <-.
      rewrite Hp in Hp'. injection Hp' as <-. rewrite Hc in Hc'.
      injection Hc' as <-. congruence.
    + intros _. exact Ht.
    + now rewrite Ht.
Qed.

End Health.

(** C6 as stated fails when [bedrock_configured] is truthy without being
    [true]: the probe is taken as healthy. *)
Lemma C6_truthy_flag_counts_as_configured :
  let text :=
    "{" +++ SampleHost.q "status" +++ ":" +++ SampleHost.q "healthy" +++ ","
    +++ SampleHost.q "bedrock_configured" +++ ":1}" in
  exists data w',
    JSON_parse SampleHost.host text = inr data
    /\ js_get data "status" = Some (JString "healthy")
    /\ js_get data "bedrock_configured" = Some (JNumber "1")
    /\ js_get data "bedrock_configured" <> Some (JBool true)
    /\ checkHealth SampleHost.host (HealthBody text) sample_world = Normal w'
    /\ isHealthy (state w') = JBool true.
Proof.
  eexists. eexists. split; [vm_compute; reflexivity |].
  repeat split. discriminate.
Qed.

(** ** The consumer of the stream *)

Lemma append_assoc (a b c : string) : (a +++ b) +++ c = a +++ (b +++ c).
Proof. induction a as [| x a IH]; simpl; [reflexivity | now rewrite IH]. Qed.

Lemma append_empty_r (a : string) : a +++ EmptyString = a.
Proof. induction a as [| x a IH]; simpl; [reflexivity | now rewrite IH]. Qed.

Section Consumer.

Variable host : Host.

(** A line either raises in the inner [try] and is logged, or delivers a
    fragment that is shown, or changes nothing. *)
Lemma process_line_eq line w t :
  process_line host line (w, t) =
  match line_error host line with
  | Some e => (console_write (ConsoleError "Error parsing SSE data:" e) w, t)
  | None =>
      match line_fragment host line with
      | Some f => show_fragment f (w, t)
      | None => (w, t)
      end
  end.
Proof.
  unfold process_line, line_error, line_fragment, show_fragment.
  destruct (startsWith "data: " line); [| reflexivity].
  destruct (str_empty (trim (substring_from 6 line))); [reflexivity |].
  destruct (JSON_parse host (substring_from 6 line)) as [e | parsed];
    [reflexivity |].
  destruct (js_get parsed "done") as [d |]; [| reflexivity].
  destruct (js_get parsed "content") as [c |]; [| reflexivity].
  destruct (truthy d); [reflexivity |].
  destruct (truthy c); [| reflexivity].
  destruct (ToString c); [| reflexivity].
  destruct (messageElement t); reflexivity.
Qed.

Lemma show_fragment_frame f w t :
  let r := show_fragment f (w, t) in
  state (fst r) = state w
  /\ network (fst r) = network w
  /\ console (fst r) = console w
  /\ streamedContent (snd r) = streamedContent t +++ f
  /\ startTime (snd r) = startTime t.
Proof. unfold show_fragment. destruct (messageElement t); repeat split. Qed.

Lemma show_fragment_same f w1 w2 t :
  same_but_console w1 w2 ->
  snd (show_fragment f (w1, t)) = snd (show_fragment f (w2, t))
  /\ same_but_console (fst (show_fragment f (w1, t)))
       (fst (show_fragment f (w2, t))).
Proof.
  intros (Hs & Hp & Hn & Ht & Hf).
  destruct w1 as [s1 p1 n1 c1 t1 f1], w2 as [s2 p2 n2 c2 t2 f2].
  simpl in *. subst.
  unfold show_fragment. destruct (messageElement t); simpl;
    split; try reflexivity; repeat split.
Qed.


Lemma error_no_fragment line e :
  line_error host line = Some e -> line_fragment host line = None.
Proof.
  unfold line_error, line_fragment.
  destruct (startsWith "data: " line); [| discriminate].
  destruct (str_empty (trim (substring_from 6 line))); [discriminate |].
  destruct (JSON_parse host (substring_from 6 line)) as [e' | parsed];
    [reflexivity |].
  destruct (js_get parsed "done") as [d |]; [| reflexivity].
  destruct (js_get parsed "content") as [c |]; [| reflexivity].
  destruct (truthy d); [reflexivity |].
  destruct (truthy c); [| reflexivity].
  destruct (ToString c); [discriminate | reflexivity].
Qed.

Lemma no_data_no_fragment line :
  startsWith "data: " line = false -> line_fragment host line = None.
Proof. unfold line_fragment. now intros ->. Qed.

Lemma stream_text_app l1 l2 :
  stream_text host (l1 ++ l2) = stream_text host l1 +++ stream_text host l2.
Proof.
  induction l1 as [| line l1 IH]; simpl; [reflexivity |].
  destruct (line_fragment host line); rewrite IH;
    [now rewrite append_assoc | reflexivity].
Qed.

Lemma stream_text_data_lines lines :
  stream_text host (filter (startsWith "data: ") lines) =
  stream_text host lines.
Proof.
  induction lines as [| line lines IH]; simpl; [reflexivity |].
  destruct (startsWith "data: " line) eqn:Hd; simpl.
  - now rewrite IH.
  - now rewrite (no_data_no_fragment _ Hd).
Qed.

Lemma stream_text_silent lines :
  (forall line, In line lines -> line_fragment host line = None) ->
  stream_text host lines = EmptyString.
Proof.
  induction lines as [| line lines IH]; simpl; intros H; [reflexivity |].
  rewrite (H line (or_introl eq_refl)). apply IH. intros l Hl. apply H.
  now right.
Qed.

Lemma process_lines_cons line lines wt :
  process_lines host (line :: lines) wt =
  process_lines host lines (process_line host line wt).
Proof. reflexivity. Qed.

(** The loop over lines: the session state and the requests are not
    touched, the console gains the entries of the malformed lines, and the
    accumulated content gains the fragments in order. *)
Lemma process_lines_frame lines : forall w t,
  let r := process_lines host lines (w, t) in
  state (fst r) = state w
  /\ network (fst r) = network w
  /\ console (fst r) = console w ++ logged_errors host lines
  /\ streamedContent (snd r) = streamedContent t +++ stream_text host lines
  /\ startTime (snd r) = startTime t.
Proof.
  induction lines as [| line lines IH]; intros w t.
  - cbn. rewrite app_nil_r, append_empty_r. repeat split.
  - cbv zeta in *. rewrite process_lines_cons, process_line_eq.
    cbn [logged_errors flat_map stream_text].
    destruct (line_error host line) as [e |] eqn:He.
    + rewrite (error_no_fragment _ _ He).
      destruct (IH (console_write (ConsoleError "Error parsing SSE data:" e) w)
                  t) as (H1 & H2 & H3 & H4 & H5).
      rewrite H1, H2, H3, H4, H5. cbn. rewrite <- app_assoc.
      repeat split.
    + destruct (line_fragment host line) as [f |] eqn:Hf.
      * destruct (show_fragment_frame f w t) as (G1 & G2 & G3 & G4 & G5).
        destruct (show_fragment f (w, t)) as [w1 t1] eqn:Hsf.
        cbn [fst snd] in *.
        destruct (IH w1 t1) as (H1 & H2 & H3 & H4 & H5).
        rewrite H1, H2, H3, H4, H5, G1, G2, G3, G4, G5, append_assoc.
        repeat split.
      * apply IH.
Qed.

(** Dropping the malformed lines, and the lines that are not data lines,
    changes nothing but the console. *)
Lemma process_lines_sound lines : forall w1 w2 t,
  same_but_console w1 w2 ->
  let r1 := process_lines host lines (w1, t) in
  let r2 := process_lines host (filter (sound host) lines) (w2, t) in
  snd r1 = snd r2 /\ same_but_console (fst r1) (fst r2).
Proof.
  induction lines as [| line lines IH]; intros w1 w2 t Hw.
  - split; [reflexivity | assumption].
  - cbv zeta in *. cbn [filter].
    rewrite process_lines_cons, process_line_eq.
    destruct (line_error host line) as [e |] eqn:He.
    + assert (Hs : sound host line = false)
        by (unfold sound, malformed; rewrite He; apply andb_false_r).
      rewrite Hs. apply IH.
      destruct Hw as (H1 & H2 & H3 & H4 & H5). repeat split; assumption.
    + destruct (startsWith "data: " line) eqn:Hd.
      * assert (Hs : sound host line = true)
          by (unfold sound, malformed; now rewrite He, Hd).
        rewrite Hs, process_lines_cons, process_line_eq, He.
        destruct (line_fragment host line) as [f |].
        -- destruct (show_fragment_same f w1 w2 t Hw) as [Ht Hw'].
           destruct (show_fragment f (w1, t)) as [wa ta].
           destruct (show_fragment f (w2, t)) as [wb tb].
           cbn [fst snd] in Ht, Hw'. subst tb. now apply IH.
        -- now apply IH.
      * assert (Hs : sound host line = false)
          by (unfold sound; now rewrite Hd).
        rewrite Hs, (no_data_no_fragment _ Hd). now apply IH.
Qed.

End Consumer.

(** ** Exchanges *)

Section Exchanges.

Variable host : Host.

Lemma same_but_console_refl w : same_but_console w w.
Proof. repeat split. Qed.

Lemma same_but_console_sym w1 w2 :
  same_but_console w1 w2 -> same_but_console w2 w1.
Proof. intros (H1 & H2 & H3 & H4 & H5). repeat split; congruence. Qed.

Lemma same_but_console_trans w1 w2 w3 :
  same_but_console w1 w2 -> same_but_console w2 w3 -> same_but_console w1 w3.
Proof.
  intros (H1 & H2 & H3 & H4 & H5) (G1 & G2 & G3 & G4 & G5).
  repeat split; congruence.
Qed.

Lemma read_chunk_step c now w t :
  streamChatResponse_read host (ReadChunk c) now w t =
  Suspended (fst (process_lines host (split LF c) (w, t)))
            (snd (process_lines host (split LF c) (w, t))).
Proof.
  unfold streamChatResponse_read, process_chunk, process_lines.
  destruct (fold_left _ _ _). reflexivity.
Qed.

Lemma read_done_step now w t :
  streamChatResponse_read host ReadDone now w t =
  Returned
    (Normal
       (stream_finally
          (set_state
             (fst (addMessage assistant (streamedContent t) (startTime t)
                     (state w))) w))).
Proof. reflexivity. Qed.

Lemma read_rejected_step e now w t :
  streamChatResponse_read host (ReadRejected e) now w t =
  Returned (Normal (stream_finally (stream_catch e now w))).
Proof. reflexivity. Qed.

Lemma resume_reads_cons r rs now w t :
  resume_reads host (r :: rs) now (Suspended w t) =
  resume_reads host rs now (streamChatResponse_read host r now w t).
Proof. reflexivity. Qed.

Lemma resume_reads_returned rs now c :
  resume_reads host rs now (Returned c) = Returned c.
Proof. destruct rs; reflexivity. Qed.

(** An accepted send: the user message is appended, the flag is raised, one
    request leaves, and the call is suspended on it. *)
Lemma send_accepted now now' w :
  preconditions w = true ->
  exists w1,
    handleSendMessage host now now' w = Suspended w1 (fresh_task now')
    /\ conversationHistory (state w1) =
       conversationHistory (state w) ++ [user_message now w]
    /\ isStreaming (state w1) = true
    /\ isHealthy (state w1) = isHealthy (state w)
    /\ network w1 = network w ++ [chat_request host now w]
    /\ console w1 = console w ++ [ConsoleLog "there"; ConsoleLog "here"].
Proof.
  unfold preconditions. intros H.
  apply andb_prop in H as [H H3]. apply andb_prop in H as [H1 H2].
  apply negb_true_iff in H1, H2.
  unfold handleSendMessage. rewrite H1, H2, H3. cbn.
  eexists. split; [reflexivity |]. cbn. rewrite <- app_assoc.
  repeat split.
Qed.

(** A response that can be streamed: the typing indicator goes, the first
    [read] is awaited. *)
Lemma fetched_streamable f now w t :
  streamable (Some f) = true ->
  exists r w1,
    f = FetchResolved r
    /\ streamChatResponse_fetched host f now w t = Suspended w1 t
    /\ state w1 = state w
    /\ network w1 = network w
    /\ console w1 = console w ++ [ConsoleLogResponse true (status r)].
Proof.
  destruct f as [e | r]; cbn; [discriminate |].
  intros H. apply andb_prop in H as [H1 H2]. apply negb_true_iff in H2.
  exists r. unfold streamChatResponse_fetched. rewrite H1, H2. cbn.
  eexists. repeat split.
Qed.

(** A body read to its end: the accumulated text is committed as one
    assistant message stamped with the start time, and the flag drops. *)
Lemma reads_to_end chunks tail now : forall w t,
  exists w',
    resume_reads host (complete_body chunks tail) now (Suspended w t) =
    Returned (Normal w')
    /\ conversationHistory (state w') =
       conversationHistory (state w)
       ++ [{| role := assistant;
              content :=
                streamedContent t +++ stream_text host (lines_of chunks);
              timestamp := startTime t |}]
    /\ isStreaming (state w') = false
    /\ isHealthy (state w') = isHealthy (state w)
    /\ network w' = network w
    /\ console w' = console w ++ logged_errors host (lines_of chunks).
Proof.
  unfold complete_body, lines_of.
  induction chunks as [| c chunks IH]; intros w t.
  - cbn [map app flat_map].
    rewrite resume_reads_cons, read_done_step, resume_reads_returned.
    eexists. split; [reflexivity |]. cbn.
    rewrite append_empty_r, app_nil_r. repeat split.
  - cbn [map app flat_map]. rewrite resume_reads_cons, read_chunk_step.
    destruct (process_lines_frame host (split LF c) w t)
      as (H1 & H2 & H3 & H4 & H5).
    destruct (process_lines host (split LF c) (w, t)) as [w1 t1].
    cbn [fst snd] in *.
    destruct (IH w1 t1) as (w' & G0 & G1 & G2 & G3 & G4 & G5).
    exists w'. split; [exact G0 |].
    rewrite G1, G2, G3, G4, G5, H1, H2, H3, H4, H5.
    rewrite stream_text_app, append_assoc.
    unfold logged_errors. rewrite flat_map_app, app_assoc.
    repeat split.
Qed.

(** Two bodies whose chunks carry the same sound lines end in worlds that
    differ at most in the console. *)
Lemma reads_sound chunks chunks' :
  Forall2 (fun c c' => sound_lines host c = sound_lines host c')
    chunks chunks' ->
  forall tail tail' now w1 w2 t,
    same_but_console w1 w2 ->
    exists wa wb,
      resume_reads host (complete_body chunks tail) now (Suspended w1 t) =
      Returned (Normal wa)
      /\ resume_reads host (complete_body chunks' tail') now (Suspended w2 t) =
         Returned (Normal wb)
      /\ same_but_console wa wb.
Proof.
  unfold complete_body.
  induction 1 as [| c c' chunks chunks' Hc _ IH]; intros tail tail' now w1 w2 t Hw.
  - cbn [map app].
    rewrite !resume_reads_cons, !read_done_step, !resume_reads_returned.
    do 2 eexists. split; [reflexivity |]. split; [reflexivity |].
    destruct Hw as (H1 & H2 & H3 & H4 & H5). repeat split; cbn; congruence.
  - cbn [map app]. rewrite !resume_reads_cons, !read_chunk_step.
    destruct (process_lines_sound host (split LF c) w1 w2 t Hw) as [Ea Ha].
    destruct (process_lines_sound host (split LF c') w2 w2 t
                (same_but_console_refl w2)) as [Eb Hb].
    fold (sound_lines host c) in Ea, Ha.
    fold (sound_lines host c') in Eb, Hb.
    rewrite <- Hc in Eb, Hb.
    destruct (process_lines host (split LF c) (w1, t)) as [wa ta].
    destruct (process_lines host (split LF c') (w2, t)) as [wb tb].
    destruct (process_lines host (sound_lines host c) (w2, t)) as [wm tm].
    cbn [fst snd] in *. subst ta tb.
    apply IH.
    exact (same_but_console_trans _ _ _ Ha (same_but_console_sym _ _ Hb)).
Qed.

(** An accepted send over a response that is read to its end. *)
Lemma send_success x w chunks tail :
  preconditions w = true ->
  streamable (fetched x) = true ->
  reads x = complete_body chunks tail ->
  exists w',
    sendMessage host x w = Returned (Normal w')
    /\ conversationHistory (state w') =
       conversationHistory (state w)
       ++ [user_message (sentAt x) w;
           {| role := assistant;
              content := stream_text host (lines_of chunks);
              timestamp := startedAt x |}]
    /\ isStreaming (state w') = false
    /\ isHealthy (state w') = isHealthy (state w)
    /\ network w' = network w ++ [chat_request host (sentAt x) w]
    /\ exists n,
         console w' =
         console w ++ [ConsoleLog "there"; ConsoleLog "here";
                       ConsoleLogResponse true n]
         ++ logged_errors host (lines_of chunks).
Proof.
  intros Hp Hf Hr. unfold sendMessage, settle.
  destruct (send_accepted (sentAt x) (startedAt x) w Hp)
    as (w1 & E1 & A1 & A2 & A3 & A4 & A5).
  rewrite E1, Hr.
  destruct (fetched x) as [f |]; [| discriminate].
  destruct (fetched_streamable f (failedAt x) w1 (fresh_task (startedAt x)) Hf)
    as (r & w2 & -> & E2 & B1 & B2 & B3).
  rewrite E2.
  destruct (reads_to_end chunks tail (failedAt x) w2 (fresh_task (startedAt x)))
    as (w' & E3 & C1 & C2 & C3 & C4 & C5).
  exists w'. split; [exact E3 |].
  rewrite C1, C2, C3, C4, C5, B1, B2, B3, A1, A3, A4, A5. cbn.
  rewrite <- !app_assoc. repeat split. exists (status r). reflexivity.
Qed.

Lemma js_get_total v k k' x :
  js_get v k = Some x -> exists y, js_get v k' = Some y.
Proof. destruct v; cbn; intros H; try discriminate; eauto. Qed.

Lemma frame_fragment line v :
  frame host line v ->
  line_fragment host line =
  match js_get v "done", js_get v "content" with
  | Some done, Some fragment =>
      if truthy done then None
      else if truthy fragment then ToString fragment
      else None
  | _, _ => None
  end.
Proof.
  intros (H1 & H2 & H3). unfold line_fragment. now rewrite H1, H2, H3.
Qed.

Lemma frame_sound line v done :
  frame host line v ->
  js_get v "done" = Some done ->
  truthy done = true ->
  line_error host line = None.
Proof.
  intros (H1 & H2 & H3) Hd Ht. unfold line_error. rewrite H1, H2, H3, Hd.
  destruct (js_get_total v "done" "content" done Hd) as [c ->].
  now rewrite Ht.
Qed.

(** C4. When the data lines of a stream, in arrival order and however they
    are cut into chunks, are the frames [{content: Hi}], [{content:  there}]
    and [{done: true}], the assistant message committed at the end of the
    stream has exactly the content Hi there. *)
Theorem C4_fragments_in_arrival_order :
  forall (x : Exchange) (w : World) (chunks : list string)
         (tail : list ReadResult) (l1 l2 l3 : string),
    preconditions w = true ->
    streamable (fetched x) = true ->
    reads x = complete_body chunks tail ->
    filter (startsWith "data: ") (lines_of chunks) = [l1; l2; l3] ->
    frame host l1 (JObject [("content", JString "Hi")]) ->
    frame host l2 (JObject [("content", JString " there")]) ->
    frame host l3 (JObject [("done", JBool true)]) ->
    exists w',
      sendMessage host x w = Returned (Normal w')
      /\ conversationHistory (state w') =
         conversationHistory (state w)
         ++ [user_message (sentAt x) w;
             {| role := assistant; content := "Hi there";
                timestamp := startedAt x |}].
Proof.
  intros x w chunks tail l1 l2 l3 Hp Hf Hr Hl F1 F2 F3.
  destruct (send_success x w chunks tail Hp Hf Hr) as (w' & E & H & _).
  exists w'. split; [exact E |]. rewrite H.
  rewrite <- stream_text_data_lines, Hl. cbn [stream_text].
  rewrite (frame_fragment _ _ F1), (frame_fragment _ _ F2),
    (frame_fragment _ _ F3).
  reflexivity.
Qed.

(** C10. A stream that reaches its end without delivering a fragment (only
    completion markers, malformed frames or other lines) still commits an
    assistant message, with empty content. *)
Theorem C10_empty_stream_commits_empty_message :
  forall (x : Exchange) (w : World) (chunks : list string)
         (tail : list ReadResult),
    preconditions w = true ->
    streamable (fetched x) = true ->
    reads x = complete_body chunks tail ->
    (forall line, In line (lines_of chunks) ->
                  line_fragment host line = None) ->
    exists w',
      sendMessage host x w = Returned (Normal w')
      /\ conversationHistory (state w') =
         conversationHistory (state w)
         ++ [user_message (sentAt x) w;
             {| role := assistant; content := EmptyString;
                timestamp := startedAt x |}].
Proof.
  intros x w chunks tail Hp Hf Hr Hs.
  destruct (send_success x w chunks tail Hp Hf Hr) as (w' & E & H & _).
  exists w'. split; [exact E |]. rewrite H.
  now rewrite (stream_text_silent host _ Hs).
Qed.

(** C7. A frame is malformed when the inner [try] raises on it: its payload,
    not blank, is not JSON, or is the JSON text null, or carries, without a
    truthy [done], a content that cannot be converted to a string.  Malformed
    frames among the lines of a stream are each logged and skipped: the
    stream is read to its end, and the session state with the committed
    message, the page and the requests are what they are for the stream
    without them; only the console differs, by one entry for each
    malformed line. *)
Theorem C7_malformed_frames_skipped :
  forall (x : Exchange) (w : World) (chunks chunks' : list string)
         (tail tail' : list ReadResult),
    preconditions w = true ->
    streamable (fetched x) = true ->
    Forall2 (fun c c' => sound_lines host c = sound_lines host c')
      chunks chunks' ->
    exists w1 w2 n,
      sendMessage host (with_reads (complete_body chunks tail) x) w =
      Returned (Normal w1)
      /\ sendMessage host (with_reads (complete_body chunks' tail') x) w =
         Returned (Normal w2)
      /\ same_but_console w1 w2
      /\ conversationHistory (state w1) =
         conversationHistory (state w)
         ++ [user_message (sentAt x) w;
             {| role := assistant;
                content := stream_text host (lines_of chunks');
                timestamp := startedAt x |}]
      /\ console w1 =
         console w ++ [ConsoleLog "there"; ConsoleLog "here";
                       ConsoleLogResponse true n]
         ++ logged_errors host (lines_of chunks).
Proof.
  intros x w chunks chunks' tail tail' Hp Hf Hc.
  destruct (send_success (with_reads (complete_body chunks tail) x) w
              chunks tail Hp Hf eq_refl)
    as (w1 & E1 & _ & _ & _ & _ & n & Hn).
  destruct (send_success (with_reads (complete_body chunks' tail') x) w
              chunks' tail' Hp Hf eq_refl)
    as (w2 & E2 & H2 & _).
  assert (Hsame : same_but_console w1 w2).
  { unfold sendMessage, settle in E1, E2.
    cbn [with_reads sentAt startedAt failedAt fetched reads] in E1, E2.
    destruct (handleSendMessage host (sentAt x) (startedAt x) w)
      as [w0 t0 | c];
      [| rewrite E1 in E2; injection E2 as <-; apply same_but_console_refl].
    destruct (fetched x) as [f |]; [| discriminate].
    destruct (streamChatResponse_fetched host f (failedAt x) w0 t0)
      as [wf tf | c].
    - destruct (reads_sound chunks chunks' Hc tail tail' (failedAt x) wf wf tf
                  (same_but_console_refl wf)) as (wa & wb & Ga & Gb & Hab).
      rewrite E1 in Ga. rewrite E2 in Gb.
      injection Ga as <-. injection Gb as <-. exact Hab.
    - rewrite resume_reads_returned in E1, E2. rewrite E1 in E2.
      injection E2 as <-. apply same_but_console_refl. }
  exists w1, w2, n. repeat split; try assumption; try apply Hsame.
  destruct Hsame as [Hs _]. rewrite Hs. exact H2.
Qed.

(** C5, as the script has it. A frame whose payload carries a truthy
    [done] is skipped: the world and the accumulated content stay as they
    are, whatever else the frame carries, and the loop goes on with the
    lines that follow; a chunk made of that line alone leaves the consumer
    waiting for the next [read]. *)
Theorem C5_done_marker_skipped :
  forall (line : string) (parsed done : JsValue) (w : World) (t : StreamTask),
    frame host line parsed ->
    js_get parsed "done" = Some done ->
    truthy done = true ->
    process_line host line (w, t) = (w, t)
    /\ (forall lines,
          process_lines host (line :: lines) (w, t) =
          process_lines host lines (w, t))
    /\ (split LF line = [line] ->
        forall now,
          streamChatResponse_read host (ReadChunk line) now w t =
          Suspended w t).
Proof.
  intros line parsed d w t F Hd Ht.
  assert (E : process_line host line (w, t) = (w, t)).
  { rewrite process_line_eq.
    rewrite (frame_sound _ _ _ F Hd Ht).
    rewrite (frame_fragment _ _ F), Hd.
    destruct (js_get_total parsed "done" "content" d Hd) as [c ->].
    now rewrite Ht. }
  split; [exact E |]. split.
  - intros lines. now rewrite process_lines_cons, E.
  - intros Hl now. rewrite read_chunk_step, Hl.
    unfold process_lines. cbn [fold_left]. now rewrite E.
Qed.

End Exchanges.

Lemma C4_fragments_in_arrival_order_witness :
  exists w',
    sendMessage SampleHost.host
      (Sample.exchange (complete_body Sample.greeting [])) Sample.ready_world =
    Returned (Normal w')
    /\ conversationHistory (state w') =
       [{| role := user; content := "hello"; timestamp := 1000%Z |};
        {| role := assistant; content := "Hi there";
           timestamp := 1001%Z |}].
Proof.
  refine (C4_fragments_in_arrival_order SampleHost.host
            (Sample.exchange (complete_body Sample.greeting []))
            Sample.ready_world Sample.greeting []
            ("data: " +++ Sample.content_frame "Hi")
            ("data: " +++ Sample.content_frame " there")
            ("data: " +++ Sample.done_frame)
            eq_refl eq_refl eq_refl eq_refl _ _ _);
    repeat split.
Defined.

Lemma C10_empty_stream_commits_empty_message_witness :
  exists w',
    sendMessage SampleHost.host
      (Sample.exchange (complete_body Sample.silent [])) Sample.ready_world =
    Returned (Normal w')
    /\ conversationHistory (state w') =
       [{| role := user; content := "hello"; timestamp := 1000%Z |};
        {| role := assistant; content := EmptyString;
           timestamp := 1001%Z |}].
Proof.
  refine (C10_empty_stream_commits_empty_message SampleHost.host
            (Sample.exchange (complete_body Sample.silent []))
            Sample.ready_world Sample.silent []
            eq_refl eq_refl eq_refl _).
  intros line Hin. vm_compute in Hin.
  repeat (destruct Hin as [<- | Hin]; [vm_compute; reflexivity |]).
  destruct Hin.
Defined.

Lemma C7_malformed_frames_skipped_witness :
  exists w1 w2 n,
    sendMessage SampleHost.host
      (with_reads (complete_body Sample.noisy []) (Sample.exchange []))
      Sample.ready_world = Returned (Normal w1)
    /\ sendMessage SampleHost.host
         (with_reads (complete_body Sample.clean []) (Sample.exchange []))
         Sample.ready_world = Returned (Normal w2)
    /\ same_but_console w1 w2
    /\ conversationHistory (state w1) =
       conversationHistory (state Sample.ready_world)
       ++ [user_message 1000%Z Sample.ready_world;
           {| role := assistant;
              content := stream_text SampleHost.host (lines_of Sample.clean);
              timestamp := 1001%Z |}]
    /\ console w1 =
       console Sample.ready_world
       ++ [ConsoleLog "there"; ConsoleLog "here"; ConsoleLogResponse true n]
       ++ logged_errors SampleHost.host (lines_of Sample.noisy).
Proof.
  refine (C7_malformed_frames_skipped SampleHost.host
            (Sample.exchange []) Sample.ready_world
            Sample.noisy Sample.clean [] []
            eq_refl eq_refl _).
  constructor; [vm_compute; reflexivity | constructor].
Defined.

Lemma C5_done_marker_skipped_witness :
  let line :=
    "data: {" +++ SampleHost.q "done" +++ ": true, "
    +++ SampleHost.q "content" +++ ": " +++ SampleHost.q "ignored" +++ "}" in
  let t := fresh_task 1001%Z in
  process_line SampleHost.host line (Sample.ready_world, t) =
  (Sample.ready_world, t)
  /\ (forall lines,
        process_lines SampleHost.host (line :: lines) (Sample.ready_world, t) =
        process_lines SampleHost.host lines (Sample.ready_world, t))
  /\ (split LF line = [line] ->
      forall now,
        streamChatResponse_read SampleHost.host (ReadChunk line) now
          Sample.ready_world t = Suspended Sample.ready_world t).
Proof.
  cbv zeta.
  refine (C5_done_marker_skipped SampleHost.host _
            (JObject [("done", JBool true); ("content", JString "ignored")])
            (JBool true) Sample.ready_world (fresh_task 1001%Z)
            _ eq_refl eq_refl).
  repeat split.
Defined.

(** C5 as stated fails: a completion marker does not end the loop, and a
    fragment that arrives after it is still accumulated and committed. *)
Lemma C5_fragment_after_done_is_committed :
  let l_done := "data: " +++ Sample.done_frame in
  let l_late := "data: " +++ Sample.content_frame "late" in
  let chunk := Sample.sse Sample.done_frame
               +++ Sample.sse (Sample.content_frame "late") in
  split LF chunk = [l_done; EmptyString; l_late; EmptyString; EmptyString]
  /\ frame SampleHost.host l_done (JObject [("done", JBool true)])
  /\ frame SampleHost.host l_late (JObject [("content", JString "late")])
  /\ exists w',
       sendMessage SampleHost.host
         (Sample.exchange [ReadChunk chunk; ReadDone]) Sample.ready_world =
       Returned (Normal w')
       /\ conversationHistory (state w') =
          [{| role := user; content := "hello"; timestamp := 1000%Z |};
           {| role := assistant; content := "late"; timestamp := 1001%Z |}].
Proof.
  cbv zeta. split; [reflexivity |]. split; [repeat split |].
  split; [repeat split |].
  eexists. split; vm_compute; reflexivity.
Qed.

(** ** Failure and the streaming flag *)

Section Failure.

Variable host : Host.

(** The [catch] and [finally] blocks, entered from a world that is [wl] up
    to the console. *)
Lemma catch_facts e now wl wl' :
  same_but_console wl wl' ->
  let w' := stream_finally (stream_catch e now wl') in
  isStreaming (state w') = false
  /\ conversationHistory (state w') = conversationHistory (state wl)
  /\ isHealthy (state w') = isHealthy (state wl)
  /\ network w' = network wl
  /\ errorMessage_text (page w') =
     "Failed to get response: " +++ error_message e
  /\ surfaces_notice wl w'
  /\ messagesContainer (page w') =
     messagesContainer (page wl) ++ [fallback_element (next_node wl) now]
  /\ typingIndicator_display (page w') = DisplayNone.
Proof.
  intros (H1 & H2 & H3 & H4 & H5).
  destruct wl as [s1 p1 n1 c1 t1 f1], wl' as [s2 p2 n2 c2 t2 f2].
  cbn in H1, H2, H3, H4, H5. subst. repeat split.
Qed.

Lemma suspensions_reads_returned rs now c :
  suspensions_reads host rs now (Returned c) = [].
Proof. destruct rs; reflexivity. Qed.

Lemma suspensions_reads_cons r rs now w t :
  suspensions_reads host (r :: rs) now (Suspended w t) =
  w :: suspensions_reads host rs now (streamChatResponse_read host r now w t).
Proof. reflexivity. Qed.

Lemma last_cons_suspended rs now w0 w t d :
  last (w0 :: suspensions_reads host rs now (Suspended w t)) d =
  last (suspensions_reads host rs now (Suspended w t)) d.
Proof. destruct rs; reflexivity. Qed.

(** A body whose reading fails: the [catch] block runs from the world of
    the last suspension, which has the session state and the requests of
    the first. *)
Lemma reads_failure rs : forall e now w t d,
  read_failure rs = Some e ->
  exists wl,
    last (suspensions_reads host rs now (Suspended w t)) d = wl
    /\ resume_reads host rs now (Suspended w t) =
       Returned (Normal (stream_finally (stream_catch e now wl)))
    /\ state wl = state w
    /\ network wl = network w.
Proof.
  induction rs as [| r rs IH]; intros e now w t d H; [discriminate |].
  destruct r as [e' | | c]; cbn [read_failure] in H; [| discriminate |].
  - injection H as ->. exists w.
    rewrite resume_reads_cons, suspensions_reads_cons, read_rejected_step,
      resume_reads_returned, suspensions_reads_returned.
    repeat split.
  - rewrite resume_reads_cons, suspensions_reads_cons, read_chunk_step.
    destruct (process_lines_frame host (split LF c) w t) as (H1 & H2 & _).
    destruct (process_lines host (split LF c) (w, t)) as [w1 t1].
    cbn [fst snd] in *.
    destruct (IH e now w1 t1 d H) as (wl & G1 & G2 & G3 & G4).
    exists wl. rewrite last_cons_suspended. repeat split; congruence.
Qed.

(** While a body is read the flag stays up; it drops when a [read] reports
    the end or fails, and stays up for good when none ever does. *)
Lemma reads_flag rs : forall now w t,
  isStreaming (state w) = true ->
  Forall (fun ws => isStreaming (state ws) = true)
    (suspensions_reads host rs now (Suspended w t))
  /\ if existsb read_ends rs
     then exists w',
            resume_reads host rs now (Suspended w t) = Returned (Normal w')
            /\ isStreaming (state w') = false
     else exists w' t',
            resume_reads host rs now (Suspended w t) = Suspended w' t'
            /\ isStreaming (state w') = true.
Proof.
  induction rs as [| r rs IH]; intros now w t Hs.
  - cbn. split; [repeat constructor; assumption |]. eauto.
  - cbn [existsb]. rewrite resume_reads_cons, suspensions_reads_cons.
    destruct r as [e | | c]; cbn [read_ends orb].
    + rewrite read_rejected_step, resume_reads_returned,
        suspensions_reads_returned.
      split; [repeat constructor; assumption |]. eauto.
    + rewrite read_done_step, resume_reads_returned,
        suspensions_reads_returned.
      split; [repeat constructor; assumption |]. eauto.
    + rewrite read_chunk_step.
      destruct (process_lines_frame host (split LF c) w t) as (H1 & _).
      destruct (process_lines host (split LF c) (w, t)) as [w1 t1].
      cbn [fst snd] in *.
      destruct (IH now w1 t1) as [F R]; [congruence |].
      split; [constructor; assumption | exact R].
Qed.

(** C3, as the script has it. When the transport fails during an accepted
    send, the call ends normally with [isStreaming] false.  One request was
    issued and none is repeated.  The error notice goes up with the message
    of the failure.  One fallback assistant element is added to the page
    after everything that was shown when the failure struck, so what was
    rendered of the partial text stays on the page.  The conversation
    history holds the user message and nothing more: neither the fallback
    nor the partial text is appended to it. *)
Theorem C3_transport_failure :
  forall (x : Exchange) (w : World) (e : JsError),
    preconditions w = true ->
    transport_failure host x = Some e ->
    exists w',
      sendMessage host x w = Returned (Normal w')
      /\ isStreaming (state w') = false
      /\ conversationHistory (state w') =
         conversationHistory (state w) ++ [user_message (sentAt x) w]
      /\ network w' = network w ++ [chat_request host (sentAt x) w]
      /\ errorMessage_text (page w') =
         "Failed to get response: " +++ error_message e
      /\ surfaces_notice (last_suspension host x w) w'
      /\ messagesContainer (page w') =
         messagesContainer (page (last_suspension host x w))
         ++ [fallback_element (next_node (last_suspension host x w))
               (failedAt x)]
      /\ typingIndicator_display (page w') = DisplayNone.
Proof.
  intros x w e Hp Hf.
  unfold sendMessage, settle, last_suspension, suspensions,
    transport_failure in *.
  destruct (send_accepted host (sentAt x) (startedAt x) w Hp)
    as (w1 & E1 & A1 & A2 & A3 & A4 & A5).
  rewrite E1.
  destruct (fetched x) as [[e' | r] |]; [| | discriminate].
  - injection Hf as ->.
    unfold streamChatResponse_fetched. cbn [try_catch_finally].
    rewrite resume_reads_returned, suspensions_reads_returned. cbn [last].
    destruct (catch_facts e (failedAt x) w1 w1 (same_but_console_refl w1))
      as (C1 & C2 & C3 & C4 & C5 & C6 & C7 & C8).
    eexists. split; [reflexivity |].
    rewrite C2, C4, A1, A4. repeat split; assumption.
  - unfold streamChatResponse_fetched.
    destruct (negb (ok r)) eqn:Hok; [| destruct (body_null r) eqn:Hb].
    + injection Hf as <-. cbn [try_catch_finally].
      rewrite resume_reads_returned, suspensions_reads_returned. cbn [last].
      destruct (catch_facts (http_error r) (failedAt x) w1
                  (console_write
                     (ConsoleLogResponse (ok r) (status r)) w1))
        as (C1 & C2 & C3 & C4 & C5 & C6 & C7 & C8);
        [repeat split |].
      eexists. split; [reflexivity |].
      rewrite C2, C4, A1, A4. repeat split; assumption.
    + injection Hf as <-. cbn [try_catch_finally].
      rewrite resume_reads_returned, suspensions_reads_returned. cbn [last].
      destruct (catch_facts (TypeError_read_null host "getReader")
                  (failedAt x) w1
                  (console_write
                     (ConsoleLogResponse (ok r) (status r)) w1))
        as (C1 & C2 & C3 & C4 & C5 & C6 & C7 & C8);
        [repeat split |].
      eexists. split; [reflexivity |].
      rewrite C2, C4, A1, A4. repeat split; assumption.
    + cbn [try_catch_finally].
      destruct (reads_failure (reads x) e (failedAt x)
                  (hideTypingIndicator
                     (console_write
                        (ConsoleLogResponse (ok r) (status r)) w1))
                  (fresh_task (startedAt x)) w Hf)
        as (wl & L1 & L2 & L3 & L4).
      rewrite last_cons_suspended, L1, L2.
      destruct (catch_facts e (failedAt x) wl wl (same_but_console_refl wl))
        as (C1 & C2 & C3 & C4 & C5 & C6 & C7 & C8).
      eexists. split; [reflexivity |].
      rewrite C2, C4, L3, L4. cbn. rewrite A1, A4.
      repeat split; assumption.
Qed.

(** C8. After an accepted send the call is suspended with [isStreaming]
    true, and the flag is true at every suspension of the exchange.  When
    the transport settles, by the end of the stream or by a failure, the
    call returns normally with the flag false; while it does not, the call
    stays suspended with the flag true. *)
Theorem C8_streaming_flag :
  forall (x : Exchange) (w : World),
    preconditions w = true ->
    suspensions host x w <> []
    /\ Forall (fun ws => isStreaming (state ws) = true) (suspensions host x w)
    /\ if settles x
       then exists w',
              sendMessage host x w = Returned (Normal w')
              /\ isStreaming (state w') = false
       else exists w' t',
              sendMessage host x w = Suspended w' t'
              /\ isStreaming (state w') = true.
Proof.
  intros x w Hp. unfold suspensions, sendMessage, settle, settles.
  destruct (send_accepted host (sentAt x) (startedAt x) w Hp)
    as (w1 & E1 & A1 & A2 & A3 & A4 & A5).
  rewrite E1. split; [discriminate |].
  destruct (fetched x) as [[e | r] |].
  - unfold streamChatResponse_fetched. cbn [try_catch_finally].
    rewrite resume_reads_returned, suspensions_reads_returned.
    split; [repeat constructor; assumption |]. eauto.
  - unfold streamChatResponse_fetched.
    destruct (negb (ok r)); [| destruct (body_null r)];
      cbn [try_catch_finally orb].
    + rewrite resume_reads_returned, suspensions_reads_returned.
      split; [repeat constructor; assumption |]. eauto.
    + rewrite resume_reads_returned, suspensions_reads_returned.
      split; [repeat constructor; assumption |]. eauto.
    + destruct (reads_flag (reads x) (failedAt x)
                  (hideTypingIndicator
                     (console_write
                        (ConsoleLogResponse (ok r) (status r)) w1))
                  (fresh_task (startedAt x)) A2) as [F R].
      split; [constructor; assumption | exact R].
  - split; [repeat constructor; assumption |]. eauto.
Qed.

End Failure.

Lemma C3_transport_failure_witness :
  let e := {| error_name := "TypeError"; error_message := "network error" |} in
  let x :=
    Sample.exchange
      [ReadChunk (Sample.sse (Sample.content_frame "Par")); ReadRejected e] in
  let w := Sample.ready_world in
  exists w',
    sendMessage SampleHost.host x w = Returned (Normal w')
    /\ isStreaming (state w') = false
    /\ conversationHistory (state w') =
       conversationHistory (state w) ++ [user_message (sentAt x) w]
    /\ network w' = network w ++ [chat_request SampleHost.host (sentAt x) w]
    /\ errorMessage_text (page w') =
       "Failed to get response: " +++ error_message e
    /\ surfaces_notice (last_suspension SampleHost.host x w) w'
    /\ messagesContainer (page w') =
       messagesContainer (page (last_suspension SampleHost.host x w))
       ++ [fallback_element (next_node (last_suspension SampleHost.host x w))
             (failedAt x)]
    /\ typingIndicator_display (page w') = DisplayNone.
Proof.
  exact (C3_transport_failure SampleHost.host
           (Sample.exchange
              [ReadChunk (Sample.sse (Sample.content_frame "Par"));
               ReadRejected {| error_name := "TypeError";
                               error_message := "network error" |}])
           Sample.ready_world
           {| error_name := "TypeError"; error_message := "network error" |}
           eq_refl eq_refl).
Defined.

(** C3 as stated fails: after a stream that breaks once [Par] has arrived,
    the history holds the user message alone.  The fallback message is on
    the page, after the partial text, and in no Message of the history. *)
Lemma C3_fallback_is_not_in_history :
  let e := {| error_name := "TypeError"; error_message := "network error" |} in
  let x :=
    Sample.exchange
      [ReadChunk (Sample.sse (Sample.content_frame "Par")); ReadRejected e] in
  exists w',
    sendMessage SampleHost.host x Sample.ready_world = Returned (Normal w')
    /\ isStreaming (state w') = false
    /\ conversationHistory (state w') =
       [{| role := user; content := "hello"; timestamp := 1000%Z |}]
    /\ ~ (exists m, In m (conversationHistory (state w'))
                    /\ role m = assistant)
    /\ map innerHTML (messagesContainer (page w')) =
       ["<p>Welcome, summoner.</p>"; "<p>hello</p>"; "<p>Par</p>";
        "<p>Sorry, I encountered an error. Please try again.</p>"].
Proof.
  cbv zeta. eexists. split; [vm_compute; reflexivity |].
  split; [reflexivity |]. split; [reflexivity |]. split; [| reflexivity].
  intros (m & [<- | []] & H). discriminate.
Qed.

Lemma C8_streaming_flag_witness :
  let x := Sample.exchange (complete_body Sample.greeting []) in
  let w := Sample.ready_world in
  preconditions w = true
  /\ settles x = true
  /\ suspensions SampleHost.host x w <> []
  /\ Forall (fun ws => isStreaming (state ws) = true)
       (suspensions SampleHost.host x w)
  /\ exists w',
       sendMessage SampleHost.host x w = Returned (Normal w')
       /\ isStreaming (state w') = false.
Proof.
  split; [reflexivity |]. split; [reflexivity |].
  exact (C8_streaming_flag SampleHost.host
           (Sample.exchange (complete_body Sample.greeting []))
           Sample.ready_world eq_refl).
Defined.

(** ** One stream at a time *)

Section OneStream.

Variable host : Host.

Lemma fetched_flag f now w t :
  match streamChatResponse_fetched host f now w t with
  | Suspended w' _ => state w' = state w
  | Returned c => exists w', c = Normal w' /\ isStreaming (state w') = false
  end.
Proof.
  unfold streamChatResponse_fetched.
  destruct f as [e | r]; cbn [try_catch_finally]; [eauto |].
  destruct (negb (ok r)); [| destruct (body_null r)];
    cbn [try_catch_finally]; eauto.
Qed.

Lemma read_flag r now w t :
  match streamChatResponse_read host r now w t with
  | Suspended w' _ => state w' = state w
  | Returned c => exists w', c = Normal w' /\ isStreaming (state w') = false
  end.
Proof.
  destruct r as [e | | c].
  - rewrite read_rejected_step. eauto.
  - rewrite read_done_step. eauto.
  - rewrite read_chunk_step.
    now destruct (process_lines_frame host (split LF c) w t) as (H & _).
Qed.

Lemma send_flag now now' w :
  match handleSendMessage host now now' w with
  | Suspended w' _ =>
      isStreaming (state w) = false /\ isStreaming (state w') = true
  | Returned c => exists w', c = Normal w' /\ state w' = state w
  end.
Proof.
  destruct (preconditions w) eqn:Hp.
  - destruct (send_accepted host now now' w Hp) as (w1 & -> & _ & H & _).
    split; [| exact H]. unfold preconditions in Hp.
    apply andb_prop in Hp as [Hp _]. apply andb_prop in Hp as [_ Hp].
    now apply negb_true_iff in Hp.
  - destruct (preconditions_false w Hp) as [He | [[He Hs] | [He [Hs Hh]]]].
    + rewrite (send_empty host _ _ _ He). eauto.
    + rewrite (send_while_streaming host _ _ _ He Hs). eauto.
    + rewrite (send_while_offline host _ _ _ He Hs Hh). eauto.
Qed.

Lemma checkHealth_flag r w :
  isStreaming (state (outcome (checkHealth host r w))) = isStreaming (state w)
  /\ conversationHistory (state (outcome (checkHealth host r w))) =
     conversationHistory (state w).
Proof.
  unfold checkHealth, checkHealth_try.
  destruct r as [e | text]; [split; reflexivity |].
  destruct (JSON_parse host text) as [e | data]; [split; reflexivity |].
  destruct (js_get data "bedrock_configured"); [| split; reflexivity].
  destruct (js_get data "status"); split; reflexivity.
Qed.

Lemma resume_one_stream i a k s :
  (forall w t,
      match k w t with
      | Suspended w' _ => state w' = state w
      | Returned c =>
          exists w', c = Normal w' /\ isStreaming (state w') = false
      end) ->
  one_stream s -> one_stream (resume i a k s).
Proof.
  intros Hk Hs. unfold resume, one_stream in *.
  destruct (streams s) as [| [a0 t0] [| y rest]] eqn:Hst; [| | destruct Hs].
  - destruct i; cbn; rewrite ?Hst; exact Hs.
  - destruct i as [| j]; cbn [nth_error];
      [| destruct j; cbn; rewrite ?Hst; exact Hs].
    destruct (Await_eqb a0 a); [| rewrite ?Hst; exact Hs].
    specialize (Hk (world s) t0).
    destruct (k (world s) t0) as [w' t' | c]; cbn.
    + congruence.
    + destruct Hk as (w' & -> & H). exact H.
Qed.

Lemma step_one_stream ev s : one_stream s -> one_stream (step host ev s).
Proof.
  intros Hs. destruct ev as [text | now now' | c | | r | i f now | i r now | t];
    cbn [step].
  - exact Hs.
  - pose proof (send_flag now now' (world s)) as H.
    unfold one_stream in *.
    destruct (handleSendMessage host now now' (world s)) as [w' t' | c]; cbn.
    + destruct H as [H0 H1].
      destruct (streams s) as [| x [| y rest]]; cbn; congruence.
    + destruct H as (w' & -> & H). cbn. now rewrite H.
  - unfold one_stream in *. cbn. now destruct c.
  - exact Hs.
  - destruct (probes s); [exact Hs |]. unfold one_stream in *. cbn.
    now rewrite (proj1 (checkHealth_flag r (world s))).
  - apply resume_one_stream; [| exact Hs]. intros w t. apply fetched_flag.
  - apply resume_one_stream; [| exact Hs]. intros w t. apply read_flag.
  - destruct (remove_timer t (timers (world s))); [| exact Hs].
    unfold one_stream in *. cbn. now destruct t.
Qed.

(** X9. Whatever the user, the timers and the network do after the script has
    loaded, the flag is up exactly while an activation of
    [streamChatResponse] is suspended, and at most one ever is. *)
Theorem one_stream_at_a_time :
  forall (evs : list Event) (w : World),
    one_stream (run host evs (start w))
    /\ length (streams (run host evs (start w))) <= 1.
Proof.
  intros evs w.
  assert (H : one_stream (run host evs (start w))).
  { unfold run. generalize (start w) (eq_refl : one_stream (start w)).
    induction evs as [| ev evs IH]; intros s Hs; [exact Hs |].
    cbn [fold_left]. apply IH. now apply step_one_stream. }
  split; [exact H |]. unfold one_stream in H.
  destruct (streams _) as [| x [| y rest]]; cbn; [lia | lia | destruct H].
Qed.

(** In the event loop a send clicked while a response is streaming starts no
    activation and issues no request: the attempt is dropped, not queued. *)
Lemma send_clicked_while_streaming now now' s :
  isStreaming (state (world s)) = true ->
  streams (step host (SendClicked now now') s) = streams s
  /\ network (world (step host (SendClicked now now') s)) = network (world s)
  /\ state (world (step host (SendClicked now now') s)) = state (world s).
Proof.
  intros Hs. cbn [step].
  destruct (str_empty (trim (messageInput_value (page (world s))))) eqn:He.
  - rewrite (send_empty host _ _ _ He). repeat split.
  - rewrite (send_while_streaming host _ _ _ He Hs). repeat split.
Qed.

End OneStream.

(** The notice is transient: the toast is up, the timer that hides it is
    armed, and the toast is hidden once that timer fires. *)
Lemma notice_is_transient text w :
  errorToast_display (page (showError text w)) = DisplayBlock
  /\ errorMessage_text (page (showError text w)) = text
  /\ In HideErrorToast (timers (showError text w))
  /\ timer_delay HideErrorToast = 5000%Z
  /\ errorToast_display (page (fire HideErrorToast (showError text w))) =
     DisplayNone.
Proof.
  repeat split. cbn. apply in_or_app. right. now left.
Qed.


(** * Further properties of the script *)

(** ** Rendering *)

Lemma count_char_app c a b :
  count_char c (a +++ b) = count_char c a + count_char c b.
Proof.
  induction a as [| x a IH]; cbn; [reflexivity |]. rewrite IH. lia.
Qed.

Lemma split_nonempty sep s : split sep s <> [].
Proof.
  destruct s as [| c r]; cbn; [discriminate |].
  destruct (Ascii.eqb c sep); [discriminate |].
  destruct (split sep r); discriminate.
Qed.

(** Splitting distributes over a separator. *)
Lemma split_app sep a r :
  split sep (a +++ String sep r) = split sep a ++ split sep r.
Proof.
  induction a as [| c a IH]; cbn.
  - now rewrite Ascii.eqb_refl.
  - destruct (Ascii.eqb c sep); [now rewrite IH |].
    rewrite IH. pose proof (split_nonempty sep a) as Hn.
    destruct (split sep a); [contradiction | reflexivity].
Qed.

Lemma join_empty_app l1 l2 :
  join_empty (l1 ++ l2) = join_empty l1 +++ join_empty l2.
Proof.
  induction l1 as [| x l1 IH]; cbn; [reflexivity |].
  unfold join_empty in *. cbn. now rewrite IH, append_assoc.
Qed.

Lemma escapeHtml_brackets text :
  count_char "<" (escapeHtml text) = 0
  /\ count_char ">" (escapeHtml text) = 0.
Proof.
  induction text as [| c r [IH1 IH2]]; [split; reflexivity |].
  cbn [escapeHtml]. rewrite !count_char_app, IH1, IH2.
  destruct (Ascii.eqb c "&") eqn:E1; [split; reflexivity |].
  destruct (Ascii.eqb c "<") eqn:E2; [split; reflexivity |].
  destruct (Ascii.eqb c ">") eqn:E3; [split; reflexivity |].
  destruct (Ascii.eqb c "160"); [split; reflexivity |].
  cbn. now rewrite E2, E3.
Qed.

(** X1. [escapeHtml] leaves no angle bracket in its result: the text cannot
    open or close a tag. *)
Theorem escapeHtml_no_markup :
  forall (text : string),
    count_char "<" (escapeHtml text) = 0
    /\ count_char ">" (escapeHtml text) = 0.
Proof. exact escapeHtml_brackets. Qed.

(** X3. In the rendering of a content every angle bracket belongs to a
    paragraph tag: there are two of each kind for each line that is not
    blank, whatever the content holds. *)
Theorem formatMessageContent_tags_only :
  forall (content : string),
    count_char "<" (formatMessageContent content) = 2 * paragraphs content
    /\ count_char ">" (formatMessageContent content) = 2 * paragraphs content.
Proof.
  intros content. unfold formatMessageContent, paragraphs, blank.
  induction (split LF content) as [| line lines [IH1 IH2]];
    [split; reflexivity |].
  cbn [map filter]. unfold join_empty in *. cbn [fold_right].
  rewrite !count_char_app, IH1, IH2.
  destruct (escapeHtml_brackets line) as [H1 H2].
  destruct (str_empty (trim line)); cbn [negb length].
  - split; reflexivity.
  - rewrite !count_char_app, H1, H2. cbn. split; lia.
Qed.

(** X4. Rendering goes line by line: the rendering of two contents joined by a
    line feed is the rendering of the first followed by that of the
    second. *)
Theorem formatMessageContent_line_feed :
  forall (a b : string),
    formatMessageContent (a +++ String LF b) =
    formatMessageContent a +++ formatMessageContent b.
Proof.
  intros a b. unfold formatMessageContent.
  now rewrite split_app, map_app, join_empty_app.
Qed.

Lemma append_is_empty a b : a +++ b = EmptyString -> a = EmptyString.
Proof. destruct a; [reflexivity | discriminate]. Qed.

(** X5. A content is rendered to nothing exactly when all its lines are blank:
    text made of white space only leaves its bubble empty. *)
Theorem formatMessageContent_empty_iff_blank :
  forall (content : string),
    formatMessageContent content = EmptyString
    <-> forallb blank (split LF content) = true.
Proof.
  intros content. unfold formatMessageContent, blank.
  induction (split LF content) as [| line lines IH]; [split; reflexivity |].
  cbn [map forallb]. unfold join_empty in *. cbn [fold_right].
  destruct (str_empty (trim line)); cbn [andb].
  - exact IH.
  - split; [| discriminate]. intros H.
    apply append_is_empty in H. discriminate.
Qed.

Lemma escapeHtml_nonempty c r : escapeHtml (String c r) <> EmptyString.
Proof.
  cbn [escapeHtml].
  destruct (Ascii.eqb c "&"); [discriminate |].
  destruct (Ascii.eqb c "<"); [discriminate |].
  destruct (Ascii.eqb c ">"); [discriminate |].
  destruct (Ascii.eqb c "160"); discriminate.
Qed.

(** X2. [escapeHtml] loses nothing: two texts with the same escaped form are
    the same text. *)
Theorem escapeHtml_injective :
  forall (a b : string), escapeHtml a = escapeHtml b -> a = b.
Proof.
  induction a as [| c1 r1 IH]; intros [| c2 r2] H.
  - reflexivity.
  - symmetry in H. now apply escapeHtml_nonempty in H.
  - now apply escapeHtml_nonempty in H.
  - cbn [escapeHtml] in H.
    destruct (Ascii.eqb c1 "&") eqn:A1;
      [| destruct (Ascii.eqb c1 "<") eqn:A2;
         [| destruct (Ascii.eqb c1 ">") eqn:A3;
            [| destruct (Ascii.eqb c1 "160") eqn:A4]]];
    (destruct (Ascii.eqb c2 "&") eqn:B1;
      [| destruct (Ascii.eqb c2 "<") eqn:B2;
         [| destruct (Ascii.eqb c2 ">") eqn:B3;
            [| destruct (Ascii.eqb c2 "160") eqn:B4]]]);
    cbn in H; try discriminate H;
    repeat match goal with
           | E : Ascii.eqb _ _ = true |- _ => apply Ascii.eqb_eq in E
           | E : Ascii.eqb _ _ = false |- _ => apply Ascii.eqb_neq in E
           end;
    injection H as H; subst; try congruence;
    try (f_equal; apply IH; congruence).
Qed.

Lemma escapeHtml_injective_witness :
  escapeHtml "a<b & c" = escapeHtml "a<b & c" /\ "a<b & c" = "a<b & c".
Proof.
  split; [reflexivity |].
  exact (escapeHtml_injective "a<b & c" "a<b & c" eq_refl).
Defined.

(** ** Chunks *)

Section Chunks.

Variable host : Host.

Lemma process_lines_app l1 l2 wt :
  process_lines host (l1 ++ l2) wt =
  process_lines host l2 (process_lines host l1 wt).
Proof. unfold process_lines. apply fold_left_app. Qed.

Lemma process_chunk_lines chunk wt :
  process_chunk host chunk wt = process_lines host (split LF chunk) wt.
Proof. reflexivity. Qed.

Lemma process_line_empty wt : process_line host EmptyString wt = wt.
Proof. now destruct wt. Qed.

(** X6. Where a chunk is cut does not matter as long as it is cut after a line
    feed: a chunk that ends a line, followed by a second chunk, is consumed
    like the two delivered as one. *)
Theorem chunk_cut_at_line_feed :
  forall (a b : string) (now : Date) (w : World) (t : StreamTask),
    resume_reads host
      [ReadChunk (a +++ String LF EmptyString); ReadChunk b] now
      (Suspended w t) =
    resume_reads host
      [ReadChunk ((a +++ String LF EmptyString) +++ b)] now (Suspended w t).
Proof.
  intros a b now w t.
  rewrite !resume_reads_cons, !read_chunk_step, resume_reads_cons,
    read_chunk_step.
  set (r := process_lines host (split LF (a +++ String LF EmptyString)) (w, t)).
  replace (fst r, snd r) with r by now destruct r.
  assert (E : process_lines host
                (split LF ((a +++ String LF EmptyString) +++ b)) (w, t) =
              process_lines host (split LF b) r).
  { subst r. rewrite append_assoc. cbn [String.append].
    rewrite !split_app, !process_lines_app. cbn [split].
    rewrite process_lines_cons, process_line_empty. reflexivity. }
  now rewrite E.
Qed.

End Chunks.

(** ** What a step of the stream leaves alone *)

Section Frame.

Variable host : Host.

Lemma show_fragment_page f w t :
  let w' := fst (show_fragment f (w, t)) in
  page w' = set_messagesContainer (messagesContainer (page w')) (page w).
Proof.
  unfold show_fragment. destruct (page w) eqn:Hp.
  destruct (messageElement t); cbn; rewrite Hp; reflexivity.
Qed.

Lemma set_messagesContainer_twice l1 l2 p :
  set_messagesContainer l1 (set_messagesContainer l2 p) =
  set_messagesContainer l1 p.
Proof. reflexivity. Qed.

(** The loop over lines writes nothing on the page but the messages. *)
Lemma process_lines_page lines : forall w t,
  let w' := fst (process_lines host lines (w, t)) in
  page w' = set_messagesContainer (messagesContainer (page w')) (page w).
Proof.
  induction lines as [| line lines IH]; intros w t.
  - cbn. now destruct (page w).
  - cbv zeta in *. rewrite process_lines_cons, process_line_eq.
    destruct (line_error host line) as [e |].
    + apply (IH (console_write _ w) t).
    + destruct (line_fragment host line) as [f |]; [| apply IH].
      pose proof (show_fragment_page f w t) as Hf. cbv zeta in Hf.
      destruct (show_fragment f (w, t)) as [w1 t1]. cbn [fst] in Hf.
      rewrite (IH w1 t1), Hf. reflexivity.
Qed.

(** What settling a [read] can change. *)
Lemma read_frame r now w t :
  match streamChatResponse_read host r now w t with
  | Suspended w' _ =>
      state w' = state w /\ network w' = network w
      /\ page w' = set_messagesContainer (messagesContainer (page w')) (page w)
  | Returned c =>
      exists w' added,
        c = Normal w'
        /\ isStreaming (state w') = false
        /\ isHealthy (state w') = isHealthy (state w)
        /\ conversationHistory (state w') =
           conversationHistory (state w) ++ added
        /\ length added <= 1
        /\ network w' = network w
        /\ messageInput_value (page w') = messageInput_value (page w)
        /\ (typingIndicator_display (page w) = DisplayNone ->
            typingIndicator_display (page w') = DisplayNone)
  end.
Proof.
  destruct r as [e | | c].
  - rewrite read_rejected_step. exists (stream_finally (stream_catch e now w)), [].
    cbn. rewrite app_nil_r. repeat split. lia.
  - rewrite read_done_step. eexists. eexists. split; [reflexivity |].
    cbn. repeat split; auto.
  - rewrite read_chunk_step.
    destruct (process_lines_frame host (split LF c) w t) as (H1 & H2 & _).
    repeat split; try assumption. apply process_lines_page.
Qed.

(** What settling [fetch] can change. *)
Lemma fetched_frame f now w t :
  match streamChatResponse_fetched host f now w t with
  | Suspended w' t' =>
      state w' = state w /\ network w' = network w /\ t' = t
      /\ typingIndicator_display (page w') = DisplayNone
      /\ messageInput_value (page w') = messageInput_value (page w)
  | Returned c =>
      exists w',
        c = Normal w'
        /\ isStreaming (state w') = false
        /\ isHealthy (state w') = isHealthy (state w)
        /\ conversationHistory (state w') = conversationHistory (state w)
        /\ network w' = network w
        /\ messageInput_value (page w') = messageInput_value (page w)
        /\ typingIndicator_display (page w') = DisplayNone
  end.
Proof.
  unfold streamChatResponse_fetched.
  destruct f as [e | r]; cbn [try_catch_finally].
  - eexists. repeat split.
  - destruct (negb (ok r)); [| destruct (body_null r)];
      cbn [try_catch_finally]; try (eexists; repeat split); repeat split.
Qed.

Lemma resume_reads_nil now r : resume_reads host [] now r = r.
Proof. now destruct r. Qed.

(** Reading a body from a suspended activation. *)
Lemma reads_frame rs : forall now w t,
  typingIndicator_display (page w) = DisplayNone ->
  match resume_reads host rs now (Suspended w t) with
  | Suspended w' _ =>
      state w' = state w /\ network w' = network w
      /\ existsb read_ends rs = false
  | Returned c =>
      exists w',
        c = Normal w'
        /\ isStreaming (state w') = false
        /\ isHealthy (state w') = isHealthy (state w)
        /\ network w' = network w
        /\ messageInput_value (page w') = messageInput_value (page w)
        /\ typingIndicator_display (page w') = DisplayNone
  end.
Proof.
  induction rs as [| r rs IH]; intros now w t Hty.
  - cbn. repeat split.
  - rewrite resume_reads_cons. pose proof (read_frame r now w t) as Hr.
    destruct (streamChatResponse_read host r now w t) as [w1 t1 | c] eqn:E.
    + destruct Hr as (H1 & H2 & H3).
      assert (Hty1 : typingIndicator_display (page w1) = DisplayNone)
        by (rewrite H3; exact Hty).
      specialize (IH now w1 t1 Hty1).
      destruct r as [e | | ch]; try (rewrite ?read_rejected_step,
                                       ?read_done_step in E; discriminate).
      cbn [existsb read_ends orb].
      destruct (resume_reads host rs now (Suspended w1 t1)) as [w2 t2 | c2].
      * destruct IH as (G1 & G2 & G3). repeat split; congruence.
      * destruct IH as (w' & -> & G1 & G2 & G3 & G4 & G5).
        exists w'. rewrite H3 in G4. cbn in G4.
        repeat split; try assumption; congruence.
    + rewrite resume_reads_returned.
      destruct Hr as (w' & added & -> & G1 & G2 & _ & _ & G3 & G4 & G5).
      exists w'. repeat split; auto.
Qed.

(** X7. The promise that [handleSendMessage] returns is never rejected,
    whatever the world it is called in and however the transport behaves;
    the same holds for [streamChatResponse] called on its own. *)
Theorem send_never_rejects :
  forall (x : Exchange) (w : World) (msg : string),
    rejects (sendMessage host x w) = false
    /\ rejects (streamChatResponse host msg x w) = false.
Proof.
  assert (R : forall rs now r,
             rejects r = false -> rejects (resume_reads host rs now r) = false).
  { induction rs as [| r0 rs IH]; intros now r Hr;
      [now rewrite resume_reads_nil |].
    destruct r as [w t | c]; [| now rewrite resume_reads_returned].
    rewrite resume_reads_cons. apply IH.
    pose proof (read_flag host r0 now w t) as H.
    destruct (streamChatResponse_read host r0 now w t) as [w1 t1 | c];
      [reflexivity |].
    now destruct H as (w' & -> & _). }
  assert (S : forall x r, rejects r = false -> rejects (settle host x r) = false).
  { intros x r Hr. unfold settle.
    destruct r as [w t | c]; [| exact Hr].
    destruct (fetched x) as [f |]; [| reflexivity].
    apply R. pose proof (fetched_flag host f (failedAt x) w t) as H.
    destruct (streamChatResponse_fetched host f (failedAt x) w t)
      as [w1 t1 | c]; [reflexivity |].
    now destruct H as (w' & -> & _). }
  intros x w msg. split; apply S.
  - pose proof (send_flag host (sentAt x) (startedAt x) w) as H.
    destruct (handleSendMessage host (sentAt x) (startedAt x) w)
      as [w1 t1 | c]; [reflexivity |].
    now destruct H as (w' & -> & _).
  - reflexivity.
Qed.

Lemma send_accepted_page now now' w :
  preconditions w = true ->
  exists w1,
    handleSendMessage host now now' w = Suspended w1 (fresh_task now')
    /\ isStreaming (state w1) = true
    /\ isHealthy (state w1) = isHealthy (state w)
    /\ messageInput_value (page w1) = EmptyString
    /\ typingIndicator_display (page w1) = DisplayFlex
    /\ messagesContainer (page w1) =
       messagesContainer (page w)
       ++ [user_element (next_node w) now
             (trim (messageInput_value (page w)))]
    /\ next_node w1 = S (next_node w).
Proof.
  unfold preconditions. intros H.
  apply andb_prop in H as [H H3]. apply andb_prop in H as [H1 H2].
  apply negb_true_iff in H1, H2.
  unfold handleSendMessage. rewrite H1, H2, H3. cbn.
  eexists. split; [reflexivity |]. repeat split.
Qed.

(** X8. Once the transport has settled, an accepted send is over and the
    session is idle again: the flag is down, the typing indicator is hidden,
    the text area is empty, [isHealthy] is what it was, and the next text is
    accepted exactly when it is not blank. *)
Theorem exchange_returns_to_idle :
  forall (x : Exchange) (w : World),
    preconditions w = true ->
    settles x = true ->
    exists w',
      sendMessage host x w = Returned (Normal w')
      /\ isStreaming (state w') = false
      /\ isHealthy (state w') = isHealthy (state w)
      /\ typingIndicator_display (page w') = DisplayNone
      /\ messageInput_value (page w') = EmptyString
      /\ forall text,
           preconditions (type_text text w') = negb (blank text).
Proof.
  intros x w Hp Hs.
  assert (Hh : truthy (isHealthy (state w)) = true).
  { unfold preconditions in Hp. now apply andb_prop in Hp as [_ Hp]. }
  destruct (send_accepted_page (sentAt x) (startedAt x) w Hp)
    as (w1 & E1 & A1 & A2 & A3 & A4 & _).
  unfold sendMessage, settle, settles in *. rewrite E1.
  assert (K : forall w',
             isStreaming (state w') = false ->
             isHealthy (state w') = isHealthy (state w) ->
             forall text,
               preconditions (type_text text w') = negb (blank text)).
  { intros w' K1 K2 text. unfold preconditions, blank. cbn.
    rewrite K1, K2, Hh. cbn. now rewrite !andb_true_r. }
  destruct (fetched x) as [f |]; [| discriminate].
  pose proof (fetched_frame f (failedAt x) w1 (fresh_task (startedAt x))) as Hf.
  destruct (streamChatResponse_fetched host f (failedAt x) w1
              (fresh_task (startedAt x))) as [w2 t2 | c] eqn:E2.
  - destruct Hf as (F1 & F2 & -> & F3 & F4).
    assert (Hr : existsb read_ends (reads x) = true).
    { destruct f as [e | r]; [discriminate E2 |].
      unfold streamChatResponse_fetched in E2.
      destruct (negb (ok r)); [discriminate E2 |].
      destruct (body_null r); [discriminate E2 |]. exact Hs. }
    pose proof (reads_frame (reads x) (failedAt x) w2
                  (fresh_task (startedAt x)) F3) as Hrs.
    destruct (resume_reads host (reads x) (failedAt x)
                (Suspended w2 (fresh_task (startedAt x)))) as [w3 t3 | c].
    + destruct Hrs as (_ & _ & Hn). congruence.
    + destruct Hrs as (w' & -> & G1 & G2 & G3 & G4 & G5).
      exists w'. split; [reflexivity |].
      assert (G2' : isHealthy (state w') = isHealthy (state w)) by congruence.
      repeat split; try assumption; try congruence. now apply K.
  - rewrite resume_reads_returned.
    destruct Hf as (w' & -> & G1 & G2 & G3 & G4 & G5 & G6).
    exists w'. split; [reflexivity |].
    assert (G2' : isHealthy (state w') = isHealthy (state w)) by congruence.
    repeat split; try assumption; try congruence. now apply K.
Qed.

End Frame.

Lemma exchange_returns_to_idle_witness :
  let x := Sample.exchange (complete_body Sample.greeting []) in
  let w := Sample.ready_world in
  exists w',
    sendMessage SampleHost.host x w = Returned (Normal w')
    /\ isStreaming (state w') = false
    /\ isHealthy (state w') = isHealthy (state w)
    /\ typingIndicator_display (page w') = DisplayNone
    /\ messageInput_value (page w') = EmptyString
    /\ forall text, preconditions (type_text text w') = negb (blank text).
Proof.
  exact (exchange_returns_to_idle SampleHost.host
           (Sample.exchange (complete_body Sample.greeting []))
           Sample.ready_world eq_refl eq_refl).
Defined.

(** ** The event loop: history and requests *)

Section LoopFrame.

Variable host : Host.

Lemma resume_relates (P : World -> World -> Prop) i a k s :
  (forall w t,
      match k w t with
      | Suspended w' _ => P w w'
      | Returned c => P w (outcome c)
      end) ->
  P (world s) (world s) ->
  P (world s) (world (resume i a k s)).
Proof.
  intros Hk Hr. unfold resume.
  destruct (nth_error (streams s) i) as [[a' t] |]; [| exact Hr].
  destruct (Await_eqb a' a); [| exact Hr].
  specialize (Hk (world s) t). now destruct (k (world s) t).
Qed.

Lemma chat_request_known now w :
  stream_request host (chat_request host now w).
Proof.
  repeat split. eexists. exists (conversationHistory (state w)), now.
  repeat split.
Qed.

(** What one event adds to the history and to the requests issued. *)
Lemma step_frame ev s :
  (confirmed_clear ev = false ->
   exists added,
     history (step host ev s) = history s ++ added /\ length added <= 1)
  /\ exists sent,
       network (world (step host ev s)) = network (world s) ++ sent
       /\ Forall (known_request host) sent.
Proof.
  unfold history.
  destruct ev as [text | now now' | c | | r | i f now | i r now | t];
    cbn [step confirmed_clear].
  - split; [intros _ |]; exists []; rewrite app_nil_r; repeat split;
      auto; cbn; lia.
  - destruct (preconditions (world s)) eqn:Hp.
    + destruct (send_accepted host now now' (world s) Hp)
        as (w1 & -> & A1 & _ & _ & A4 & _). cbn [world].
      split; [intros _; eexists; split; [exact A1 | cbn; lia] |].
      eexists. split; [exact A4 |].
      constructor; [right; apply chat_request_known | constructor].
    + destruct (preconditions_false _ Hp) as [He | [[He Hs] | [He [Hs Hh]]]];
        [ rewrite (send_empty host now now' _ He)
        | rewrite (send_while_streaming host now now' _ He Hs)
        | rewrite (send_while_offline host now now' _ He Hs Hh) ];
        cbn; (split; [intros _ |]); exists []; rewrite app_nil_r;
        repeat split; auto; cbn; lia.
  - split.
    + intros Hc. destruct c; [discriminate |]. exists [].
      rewrite app_nil_r. split; [reflexivity | cbn; lia].
    + exists []. rewrite app_nil_r. split; [now destruct c | constructor].
  - split; [intros _; exists []; rewrite app_nil_r; split;
            [reflexivity | cbn; lia] |].
    eexists. split; [reflexivity |].
    constructor; [now left | constructor].
  - destruct (probes s).
    + split; [intros _ |]; exists []; rewrite app_nil_r; repeat split;
        auto; cbn; lia.
    + cbn [world].
      destruct (checkHealth_flag host r (world s)) as [_ Hh].
      split; [intros _; exists []; rewrite app_nil_r; split;
              [exact Hh | cbn; lia] |].
      exists []. rewrite app_nil_r. split; [| constructor].
      unfold checkHealth, checkHealth_try.
      destruct r as [e | text]; [reflexivity |].
      destruct (JSON_parse host text) as [e | data]; [reflexivity |].
      destruct (js_get data "bedrock_configured"); [| reflexivity].
      destruct (js_get data "status"); reflexivity.
  - split; [intros _ |].
    + apply (resume_relates
               (fun w w' =>
                  exists added,
                    conversationHistory (state w') =
                    conversationHistory (state w) ++ added
                    /\ length added <= 1)).
      * intros w t. pose proof (fetched_frame host f now w t) as H.
        destruct (streamChatResponse_fetched host f now w t) as [w1 t1 | c].
        -- destruct H as (H & _). exists []. rewrite app_nil_r, H.
           split; [reflexivity | cbn; lia].
        -- destruct H as (w' & -> & _ & _ & H & _). exists [].
           rewrite app_nil_r. split; [exact H | cbn; lia].
      * exists []. rewrite app_nil_r. split; [reflexivity | cbn; lia].
    + exists []. rewrite app_nil_r. split; [| constructor].
      apply (resume_relates (fun w w' => network w' = network w));
        [| reflexivity].
      intros w t. pose proof (fetched_frame host f now w t) as H.
      destruct (streamChatResponse_fetched host f now w t) as [w1 t1 | c].
      * now destruct H as (_ & H & _).
      * now destruct H as (w' & -> & _ & _ & _ & H & _).
  - split; [intros _ |].
    + apply (resume_relates
               (fun w w' =>
                  exists added,
                    conversationHistory (state w') =
                    conversationHistory (state w) ++ added
                    /\ length added <= 1)).
      * intros w t. pose proof (read_frame host r now w t) as H.
        destruct (streamChatResponse_read host r now w t) as [w1 t1 | c].
        -- destruct H as (H & _). exists []. rewrite app_nil_r, H.
           split; [reflexivity | cbn; lia].
        -- destruct H as (w' & added & -> & _ & _ & H1 & H2 & _).
           exists added. split; assumption.
      * exists []. rewrite app_nil_r. split; [reflexivity | cbn; lia].
    + exists []. rewrite app_nil_r. split; [| constructor].
      apply (resume_relates (fun w w' => network w' = network w));
        [| reflexivity].
      intros w t. pose proof (read_frame host r now w t) as H.
      destruct (streamChatResponse_read host r now w t) as [w1 t1 | c].
      * now destruct H as (_ & H & _).
      * now destruct H as (w' & added & -> & _ & _ & _ & _ & H & _).
  - destruct (remove_timer t (timers (world s))).
    + split; [intros _ |]; exists []; rewrite app_nil_r; repeat split;
        try (now destruct t); try constructor; cbn; lia.
    + split; [intros _ |]; exists []; rewrite app_nil_r; repeat split;
        auto; cbn; lia.
Qed.

(** X10. Whatever happens, a message once in the history stays there, in place
    and unchanged, until the user confirms a clear: over any events without
    a confirmed clear the history only grows at its end. *)
Theorem history_grows_at_the_end :
  forall (evs : list Event) (s : Session),
    existsb confirmed_clear evs = false ->
    exists added, history (run host evs s) = history s ++ added.
Proof.
  induction evs as [| ev evs IH]; intros s Hc.
  - exists []. now rewrite app_nil_r.
  - cbn [existsb] in Hc. apply orb_false_elim in Hc as [Hc1 Hc2].
    unfold run in *. cbn [fold_left].
    destruct (IH (step host ev s) Hc2) as (a2 & E2).
    destruct (step_frame ev s) as [H _].
    destruct (H Hc1) as (a1 & E1 & _).
    exists (a1 ++ a2). now rewrite E2, E1, app_assoc.
Qed.

(** X11. Whatever happens, the only requests the script issues are the health
    probe and posts to the streaming endpoint that ask for the knowledge
    base and carry a history ending with the message being sent; the other
    chat endpoint is never called. *)
Theorem only_known_requests :
  forall (evs : list Event) (s : Session),
    exists sent,
      network (world (run host evs s)) = network (world s) ++ sent
      /\ Forall (known_request host) sent.
Proof.
  induction evs as [| ev evs IH]; intros s.
  - exists []. rewrite app_nil_r. split; [reflexivity | constructor].
  - unfold run in *. cbn [fold_left].
    destruct (IH (step host ev s)) as (s2 & E2 & F2).
    destruct (step_frame ev s) as [_ (s1 & E1 & F1)].
    exists (s1 ++ s2). rewrite E2, E1, app_assoc. split; [reflexivity |].
    apply Forall_app. now split.
Qed.

End LoopFrame.

Lemma history_grows_at_the_end_witness :
  existsb confirmed_clear Scenario.conversation = false
  /\ exists added,
       history (run SampleHost.host Scenario.conversation
                  (start sample_world)) =
       history (start sample_world) ++ added.
Proof.
  split; [reflexivity |].
  exact (history_grows_at_the_end SampleHost.host Scenario.conversation
           (start sample_world) eq_refl).
Defined.

(** ** What the page shows of a stream *)

Section Bubbles.

Variable host : Host.

Lemma set_innerHTML_untouched n html pre :
  Forall (fun e => node e < n) pre ->
  map (fun e =>
         if (node e =? n)%nat
         then {| node := node e; welcome := welcome e;
                 element_role := element_role e;
                 element_time := element_time e;
                 innerHTML := innerHTML_parsed html |}
         else e) pre = pre.
Proof.
  induction 1 as [| e pre He _ IH]; cbn; [reflexivity |].
  rewrite IH. assert (E : (node e =? n)%nat = false)
    by (apply Nat.eqb_neq; lia).
  now rewrite E.
Qed.

Lemma show_fragment_bubble f pre n0 w t :
  bubble_shown pre n0 w t ->
  bubble_shown pre n0 (fst (show_fragment f (w, t)))
    (snd (show_fragment f (w, t)))
  /\ messageElement (snd (show_fragment f (w, t))) = Some n0.
Proof.
  intros (Hc & Hpre & Hn). unfold show_fragment, bubble_shown, bubble in *.
  destruct (messageElement t) as [el |]; cbn.
  - destruct Hn as [-> Hn]. rewrite Hc, map_app.
    rewrite (set_innerHTML_untouched _ _ _ Hpre). cbn.
    rewrite Nat.eqb_refl. repeat split; assumption.
  - rewrite app_nil_r in Hc. rewrite Hc, Hn. repeat split; assumption.
Qed.

Lemma process_lines_bubble lines : forall pre n0 w t,
  bubble_shown pre n0 w t ->
  let r := process_lines host lines (w, t) in
  bubble_shown pre n0 (fst r) (snd r)
  /\ messageElement (snd r) =
     match messageElement t with
     | Some el => Some el
     | None => if delivers host lines then Some n0 else None
     end.
Proof.
  induction lines as [| line lines IH]; intros pre n0 w t Hb.
  - cbn. split; [exact Hb |]. now destruct (messageElement t).
  - cbv zeta in *. rewrite process_lines_cons, process_line_eq.
    cbn [delivers existsb]. fold (delivers host lines).
    destruct (line_error host line) as [e |] eqn:He.
    + rewrite (error_no_fragment _ _ _ He). cbn [orb].
      apply (IH pre n0 (console_write _ w) t). exact Hb.
    + destruct (line_fragment host line) as [f |]; cbn [orb];
        [| now apply IH].
      destruct (show_fragment_bubble f pre n0 w t Hb) as [Hb1 Hm1].
      destruct (show_fragment f (w, t)) as [w1 t1]. cbn [fst snd] in *.
      destruct (IH pre n0 w1 t1 Hb1) as [Hb2 Hm2].
      split; [exact Hb2 |]. rewrite Hm2, Hm1.
      destruct Hb as (_ & _ & Hn).
      destruct (messageElement t) as [el |]; [| reflexivity].
      now destruct Hn as [-> _].
Qed.

Lemma delivers_app l1 l2 :
  delivers host (l1 ++ l2) = delivers host l1 || delivers host l2.
Proof. unfold delivers. apply existsb_app. Qed.

(** A body read to its end from an activation whose page is as
    [bubble_shown] says: the page ends with [pre] and, if a fragment ever
    came, one bubble with the whole text. *)
Lemma reads_bubble chunks tail now : forall pre n0 w t,
  bubble_shown pre n0 w t ->
  exists w',
    resume_reads host (complete_body chunks tail) now (Suspended w t) =
    Returned (Normal w')
    /\ messagesContainer (page w') =
       pre ++
       match messageElement t with
       | None =>
           if delivers host (lines_of chunks)
           then [assistant_element n0 (startTime t)
                   (streamedContent t +++ stream_text host (lines_of chunks))]
           else []
       | Some el =>
           [assistant_element el (startTime t)
              (streamedContent t +++ stream_text host (lines_of chunks))]
       end.
Proof.
  unfold complete_body, lines_of.
  induction chunks as [| c chunks IH]; intros pre n0 w t Hb.
  - cbn [map app flat_map].
    rewrite resume_reads_cons, read_done_step, resume_reads_returned.
    eexists. split; [reflexivity |]. cbn.
    destruct Hb as (Hc & _). rewrite Hc, append_empty_r. unfold bubble.
    now destruct (messageElement t).
  - cbn [map app flat_map]. rewrite resume_reads_cons, read_chunk_step.
    destruct (process_lines_bubble (split LF c) pre n0 w t Hb) as [Hb1 Hm1].
    destruct (process_lines_frame host (split LF c) w t)
      as (_ & _ & _ & H4 & H5).
    destruct (process_lines host (split LF c) (w, t)) as [w1 t1].
    cbn [fst snd] in *.
    destruct (IH pre n0 w1 t1 Hb1) as (w' & E & Hc').
    exists w'. split; [exact E |]. rewrite Hc', Hm1, H4, H5.
    rewrite stream_text_app, append_assoc, delivers_app.
    destruct (messageElement t) as [el |]; [reflexivity |].
    destruct (delivers host (split LF c)); reflexivity.
Qed.

Lemma fresh_nodes_Forall w :
  fresh_nodes w = true ->
  Forall (fun e => node e < next_node w) (messagesContainer (page w)).
Proof.
  unfold fresh_nodes. rewrite forallb_forall, Forall_forall.
  intros H e He. apply Nat.ltb_lt. now apply H.
Qed.

(** X12. After a send that is answered to the end of its stream the page holds
    what it held, then the bubble of the user with the trimmed text, then,
    if any fragment came, one assistant bubble.  Each bubble holds what the
    page keeps of the rendering assigned to it (carriage returns read as
    line feeds, U+0000 dropped), the assistant bubble that of the very text
    that is committed to the history.  When no fragment came, no assistant
    bubble is added. *)
Theorem page_after_stream :
  forall (x : Exchange) (w : World) (chunks : list string)
         (tail : list ReadResult),
    preconditions w = true ->
    fresh_nodes w = true ->
    streamable (fetched x) = true ->
    reads x = complete_body chunks tail ->
    exists w',
      sendMessage host x w = Returned (Normal w')
      /\ messagesContainer (page w') =
         messagesContainer (page w)
         ++ user_element (next_node w) (sentAt x)
              (trim (messageInput_value (page w)))
         :: if delivers host (lines_of chunks)
            then [assistant_element (S (next_node w)) (startedAt x)
                    (stream_text host (lines_of chunks))]
            else [].
Proof.
  intros x w chunks tail Hp Hfresh Hf Hr. unfold sendMessage, settle.
  destruct (send_accepted_page host (sentAt x) (startedAt x) w Hp)
    as (w1 & E1 & _ & _ & _ & _ & A5 & A6).
  rewrite E1, Hr.
  destruct (fetched x) as [f |]; [| discriminate].
  destruct f as [e | r]; [discriminate |]. cbn in Hf.
  apply andb_prop in Hf as [H1 H2]. apply negb_true_iff in H2.
  unfold streamChatResponse_fetched. rewrite H1, H2. cbn [negb try_catch_finally].
  set (w2 := hideTypingIndicator _).
  assert (Hb : bubble_shown
                 (messagesContainer (page w)
                  ++ [user_element (next_node w) (sentAt x)
                        (trim (messageInput_value (page w)))])
                 (S (next_node w)) w2 (fresh_task (startedAt x))).
  { repeat split.
    - subst w2. cbn. rewrite A5. now rewrite app_nil_r.
    - apply Forall_app. split.
      + apply fresh_nodes_Forall in Hfresh.
        eapply Forall_impl; [| exact Hfresh]. cbn. intros. lia.
      + repeat constructor.
    - subst w2. cbn. exact A6. }
  destruct (reads_bubble chunks tail (failedAt x) _ _ w2
              (fresh_task (startedAt x)) Hb) as (w' & E & Hc).
  exists w'. split; [exact E |]. rewrite Hc, <- app_assoc. reflexivity.
Qed.

Lemma not_welcome_Forall el w :
  not_welcome el w = true ->
  Forall (fun e => node e <> el)
    (filter welcome (messagesContainer (page w))).
Proof.
  unfold not_welcome. rewrite forallb_forall, Forall_forall.
  intros H e He. specialize (H e He). apply negb_true_iff in H.
  now apply Nat.eqb_neq in H.
Qed.

Lemma set_innerHTML_absent n html l :
  Forall (fun e => node e <> n) l ->
  map (fun e =>
         if (node e =? n)%nat
         then {| node := node e; welcome := welcome e;
                 element_role := element_role e;
                 element_time := element_time e;
                 innerHTML := innerHTML_parsed html |}
         else e) l = l.
Proof.
  induction 1 as [| e l He _ IH]; cbn; [reflexivity |].
  rewrite IH. apply Nat.eqb_neq in He. now rewrite He.
Qed.

(** Fragments for a bubble that is no longer on the page change nothing on
    the page. *)
Lemma process_lines_detached lines : forall w t el,
  messageElement t = Some el ->
  Forall (fun e => node e <> el) (messagesContainer (page w)) ->
  let r := process_lines host lines (w, t) in
  messagesContainer (page (fst r)) = messagesContainer (page w)
  /\ messageElement (snd r) = Some el.
Proof.
  induction lines as [| line lines IH]; intros w t el Hm Hd.
  - cbn. split; [reflexivity | exact Hm].
  - cbv zeta in *. rewrite process_lines_cons, process_line_eq.
    destruct (line_error host line) as [e |].
    + apply (IH (console_write _ w) t el Hm Hd).
    + destruct (line_fragment host line) as [f |]; [| now apply IH].
      unfold show_fragment. rewrite Hm.
      set (w1 := scrollToBottom _). set (t1 := mkStreamTask _ _ _).
      assert (Hc : messagesContainer (page w1) = messagesContainer (page w))
        by (subst w1; cbn; now apply set_innerHTML_absent).
      destruct (IH w1 t1 el eq_refl) as [G1 G2];
        [now rewrite Hc |].
      split; [now rewrite G1 | exact G2].
Qed.

(** X13. Clearing the chat while an answer streams does not stop the stream.
    The bubble is gone and later fragments no longer show, so the page
    keeps the welcome elements only; yet the fragments are still gathered,
    and at the end of the stream the whole answer is committed as the only
    message of the emptied history. *)
Theorem clear_during_stream :
  forall (chunks : list string) (tail : list ReadResult) (now : Date)
         (w : World) (t : StreamTask) (el : nat),
    messageElement t = Some el ->
    not_welcome el w = true ->
    exists w',
      resume_reads host (complete_body chunks tail) now
        (Suspended (handleClearChat true w) t) = Returned (Normal w')
      /\ conversationHistory (state w') =
         [{| role := assistant;
             content :=
               streamedContent t +++ stream_text host (lines_of chunks);
             timestamp := startTime t |}]
      /\ messagesContainer (page w') =
         filter welcome (messagesContainer (page w))
      /\ isStreaming (state w') = false.
Proof.
  intros chunks tail now w t el Hm Hw.
  destruct (reads_to_end host chunks tail now (handleClearChat true w) t)
    as (w' & E & H1 & H2 & _).
  exists w'. split; [exact E |]. split; [exact H1 |]. split; [| exact H2].
  clear H1 H2. revert w' E.
  assert (Hd : Forall (fun e => node e <> el)
                 (messagesContainer (page (handleClearChat true w))))
    by (cbn; now apply not_welcome_Forall).
  change (filter welcome (messagesContainer (page w)))
    with (messagesContainer (page (handleClearChat true w))).
  generalize dependent (handleClearChat true w). clear w Hw.
  unfold complete_body. revert t Hm.
  induction chunks as [| c chunks IH]; intros t Hm w Hd w' E.
  - cbn [map app] in E.
    rewrite resume_reads_cons, read_done_step, resume_reads_returned in E.
    injection E as <-. reflexivity.
  - cbn [map app] in E. rewrite resume_reads_cons, read_chunk_step in E.
    destruct (process_lines_detached (split LF c) w t el Hm Hd) as [G1 G2].
    destruct (process_lines host (split LF c) (w, t)) as [w1 t1].
    cbn [fst snd] in *. rewrite <- G1. apply (IH t1 G2 w1); [| exact E].
    now rewrite G1.
Qed.

End Bubbles.

Lemma page_after_stream_witness :
  let x := Sample.exchange (complete_body Sample.greeting []) in
  let w := Sample.ready_world in
  exists w',
    sendMessage SampleHost.host x w = Returned (Normal w')
    /\ messagesContainer (page w') =
       messagesContainer (page w)
       ++ user_element (next_node w) (sentAt x)
            (trim (messageInput_value (page w)))
       :: if delivers SampleHost.host (lines_of Sample.greeting)
          then [assistant_element (S (next_node w)) (startedAt x)
                  (stream_text SampleHost.host (lines_of Sample.greeting))]
          else [].
Proof.
  exact (page_after_stream SampleHost.host
           (Sample.exchange (complete_body Sample.greeting []))
           Sample.ready_world Sample.greeting [] eq_refl eq_refl eq_refl
           eq_refl).
Defined.

Lemma clear_during_stream_witness :
  let w := fst Scenario.mid_stream in
  let t := snd Scenario.mid_stream in
  let chunks := [Sample.sse (Sample.content_frame " there")] in
  messageElement t = Some 2
  /\ not_welcome 2 w = true
  /\ exists w',
       resume_reads SampleHost.host (complete_body chunks []) 2000%Z
         (Suspended (handleClearChat true w) t) = Returned (Normal w')
       /\ conversationHistory (state w') =
          [{| role := assistant;
              content :=
                streamedContent t
                +++ stream_text SampleHost.host (lines_of chunks);
              timestamp := startTime t |}]
       /\ messagesContainer (page w') =
          filter welcome (messagesContainer (page w))
       /\ isStreaming (state w') = false.
Proof.
  split; [reflexivity |]. split; [reflexivity |].
  exact (clear_during_stream SampleHost.host
           [Sample.sse (Sample.content_frame " there")] [] 2000%Z
           (fst Scenario.mid_stream) (snd Scenario.mid_stream) 2
           eq_refl eq_refl).
Defined.

(** ** Notices and the health probe *)

Lemma remove_first_of_two l :
  exists rest,
    remove_timer HideErrorToast ((l ++ [HideErrorToast]) ++ [HideErrorToast]) =
    Some rest
    /\ In HideErrorToast rest.
Proof.
  induction l as [| t l (rest & E & Hin)]; cbn.
  - eexists. split; [reflexivity |]. now left.
  - destruct t.
    + eexists. split; [reflexivity |]. apply in_or_app. right. now left.
    + rewrite E. eexists. split; [reflexivity |]. now right.
Qed.

(** X14. Two notices in a row share the toast but not the timers: when the
    first timer fires, the toast with the text of the second notice is
    hidden although the timer armed for it is still pending. *)
Theorem earlier_timer_hides_later_notice :
  forall (host : Host) (first second : string) (s : Session),
    let shown :=
      {| world := showError second (showError first (world s));
         streams := streams s; probes := probes s |} in
    let after := step host (TimerFired HideErrorToast) shown in
    errorToast_display (page (world shown)) = DisplayBlock
    /\ errorMessage_text (page (world shown)) = second
    /\ errorToast_display (page (world after)) = DisplayNone
    /\ errorMessage_text (page (world after)) = second
    /\ In HideErrorToast (timers (world after)).
Proof.
  intros host first second s. cbv zeta. cbn [step world].
  change (timers (showError second (showError first (world s))))
    with ((timers (world s) ++ [HideErrorToast]) ++ [HideErrorToast]).
  destruct (remove_first_of_two (timers (world s))) as (rest & -> & Hin).
  repeat split. exact Hin.
Qed.

(** X15. A health probe may settle at any moment, also while an answer streams:
    it leaves the history, the streaming flag, the messages shown, the text
    typed, the typing indicator, the requests and the timers as they are,
    and sets the status text by the value it stores in [isHealthy]. *)
Theorem checkHealth_touches_health_only :
  forall (host : Host) (r : HealthResult) (w : World),
    let w' := outcome (checkHealth host r w) in
    conversationHistory (state w') = conversationHistory (state w)
    /\ isStreaming (state w') = isStreaming (state w)
    /\ messagesContainer (page w') = messagesContainer (page w)
    /\ messageInput_value (page w') = messageInput_value (page w)
    /\ typingIndicator_display (page w') = typingIndicator_display (page w)
    /\ errorToast_display (page w') = errorToast_display (page w)
    /\ network w' = network w
    /\ timers w' = timers w
    /\ statusText (page w') =
       if truthy (isHealthy (state w')) then "Online" else "Offline".
Proof.
  intros host r w. cbv zeta. unfold checkHealth, checkHealth_try.
  destruct r as [e | text]; [repeat split |].
  destruct (JSON_parse host text) as [e | data]; [repeat split |].
  destruct (js_get data "bedrock_configured"); [| repeat split].
  destruct (js_get data "status"); repeat split.
Qed.

(** ** The suggestions panel *)

(** X16. After any of the handlers has run on a page that has both the panel
    and the button, the button is marked active exactly when the panel is
    shown. *)
Theorem suggestions_button_follows_panel :
  forall (d : Display) (a : bool) (log : list PanelLog)
         (suggestion : option string) (w : World),
    let p := {| suggestionsPanel := Some d; suggestionsButton := Some a;
                panel_console := log |} in
    suggestionsButton (toggleSuggestions p) =
      Some (panel_visible (toggleSuggestions p))
    /\ suggestionsButton (openSuggestionsPanel p) =
         Some (panel_visible (openSuggestionsPanel p))
    /\ suggestionsButton (closeSuggestionsPanel p) =
         Some (panel_visible (closeSuggestionsPanel p))
    /\ suggestionsButton (snd (handleSuggestionClick suggestion (w, p))) =
         Some (panel_visible (snd (handleSuggestionClick suggestion (w, p)))).
Proof. intros d a log suggestion w. destruct d; repeat split. Qed.

(** X17. With both elements on the page, a toggle flips whether the panel is
    shown, so two toggles restore it. *)
Theorem toggle_flips_the_panel :
  forall (d : Display) (a : bool) (log : list PanelLog),
    let p := {| suggestionsPanel := Some d; suggestionsButton := Some a;
                panel_console := log |} in
    panel_visible (toggleSuggestions p) = negb (panel_visible p)
    /\ panel_visible (toggleSuggestions (toggleSuggestions p)) =
       panel_visible p.
Proof. intros d a log. destruct d; split; reflexivity. Qed.

(** X18. When the page lacks the panel or the button, no handler opens or closes
    anything: the panel and the button stay as they are, and a toggle on a
    page without panel reports it. *)
Theorem suggestions_need_both_elements :
  forall (p : Suggestions),
    suggestionsPanel p = None \/ suggestionsButton p = None ->
    (forall q, q = toggleSuggestions p \/ q = openSuggestionsPanel p
               \/ q = closeSuggestionsPanel p ->
               suggestionsPanel q = suggestionsPanel p
               /\ suggestionsButton q = suggestionsButton p)
    /\ (suggestionsPanel p = None ->
        In ErrorPanelNotFound (panel_console (toggleSuggestions p))).
Proof.
  intros [panel button log] H. cbn in H. split.
  - intros q Hq. destruct panel as [d |], button as [a |];
      try (destruct H; discriminate);
      destruct Hq as [-> | [-> | ->]]; try (split; reflexivity);
      destruct d; split; reflexivity.
  - cbn. intros ->. cbn. apply in_or_app. right. now left.
Qed.

Lemma suggestions_need_both_elements_witness :
  let p := {| suggestionsPanel := Some DisplayNone; suggestionsButton := None;
              panel_console := [] |} in
  (forall q, q = toggleSuggestions p \/ q = openSuggestionsPanel p
             \/ q = closeSuggestionsPanel p ->
             suggestionsPanel q = suggestionsPanel p
             /\ suggestionsButton q = suggestionsButton p)
  /\ (suggestionsPanel p = None ->
      In ErrorPanelNotFound (panel_console (toggleSuggestions p))).
Proof.
  exact (suggestions_need_both_elements
           {| suggestionsPanel := Some DisplayNone; suggestionsButton := None;
              panel_console := [] |} (or_intror eq_refl)).
Defined.

Lemma textarea_value_plain text :
  count_char "013" text = 0 -> textarea_value text = text.
Proof.
  induction text as [| c r IH]; [reflexivity |]. cbn.
  destruct (Ascii.eqb c "013"); [discriminate |].
  intros H. now rewrite IH.
Qed.

(** X19. Clicking a suggestion only fills the text area: the text area
    takes the suggestion, with every carriage return (alone or before a
    line feed) read back as one line feed, so a suggestion without carriage
    return is taken as it is; the text area is focused and the panel is
    closed; the session state, the requests and the messages shown are
    untouched.  The send guard then judges the session as if that value had
    been typed. *)
Theorem suggestion_click_fills_the_input :
  forall (text : string) (w : World) (d : Display) (a : bool)
         (log : list PanelLog),
    let p := {| suggestionsPanel := Some d; suggestionsButton := Some a;
                panel_console := log |} in
    let w' := fst (handleSuggestionClick (Some text) (w, p)) in
    let p' := snd (handleSuggestionClick (Some text) (w, p)) in
    messageInput_value (page w') = textarea_value text
    /\ (count_char "013" text = 0 -> messageInput_value (page w') = text)
    /\ messageInput_focused (page w') = true
    /\ state w' = state w
    /\ network w' = network w
    /\ messagesContainer (page w') = messagesContainer (page w)
    /\ panel_visible p' = false
    /\ preconditions w' = preconditions (type_text (textarea_value text) w).
Proof.
  intros text w d a log. cbv zeta. repeat split.
  intros H. cbn. now apply textarea_value_plain.
Qed.

(** ** A content that cannot be converted *)

(** A frame whose content is an object with an own member [toString] makes
    the concatenation raise: the frame is logged and skipped like any other
    malformed frame, and the fragment after it is gathered and shown. *)
Example unconvertible_content_is_logged_and_skipped :
  let unconvertible :=
    "{" +++ SampleHost.q "content" +++ ": {" +++ SampleHost.q "toString"
    +++ ": 1}}" in
  let chunk := Sample.sse unconvertible
               +++ Sample.sse (Sample.content_frame "ok") in
  malformed SampleHost.host ("data: " +++ unconvertible) = true
  /\ exists w',
       sendMessage SampleHost.host
         (Sample.exchange [ReadChunk chunk; ReadDone]) Sample.ready_world =
       Returned (Normal w')
       /\ conversationHistory (state w') =
          [{| role := user; content := "hello"; timestamp := 1000%Z |};
           {| role := assistant; content := "ok"; timestamp := 1001%Z |}]
       /\ console w' =
          [ConsoleLog "there"; ConsoleLog "here";
           ConsoleLogResponse true 200%Z;
           ConsoleError "Error parsing SSE data:" SampleHost.to_primitive]
       /\ map innerHTML (messagesContainer (page w')) =
          ["<p>Welcome, summoner.</p>"; "<p>hello</p>"; "<p>ok</p>"].
Proof.
  cbv zeta. split; [reflexivity |].
  eexists. split; [vm_compute; reflexivity |]. repeat split.
Qed.
